(** * Portfolio-Optimization-Framework: the optimization engine

    A shallow embedding of [src/optimization/markowitz.py],
    [src/optimization/risk_parity.py] and
    [src/optimization/max_diversification.py].

    Numbers are IEEE-754 binary64 values (NumPy's [float64]), modelled by
    the primitive floats of the kernel: a square root of a negative number
    and a quotient [0/0] are the value [nan], a quotient [x/0] is an
    infinity, and none of them raises.  Python exceptions are the [Raise]
    outcomes of an error monad.  SciPy's [minimize] is an interface
    ([Solver]) the three optimizers are parameterised by. *)

From Stdlib Require Import String.
From Stdlib Require Import List ZArith Bool Floats Lia.
Import ListNotations.

Local Open Scope string_scope.
Local Open Scope list_scope.

(** ** Python outcomes *)

Module Py.

(** The exceptions the optimizers can meet.  The class of each is the
    library's; the texts are shortened, except the one the optimizers
    build themselves. *)
Inductive exn : Type :=
| TypeError (msg : string)
| ValueError (msg : string)
| AttributeError (msg : string)
| Exception (msg : string).

Inductive outcome (A : Type) : Type :=
| Return (a : A)
| Raise (e : exn).

Arguments Return {A} a.
Arguments Raise {A} e.

Definition bind {A B : Type} (m : outcome A) (k : A -> outcome B) : outcome B :=
  match m with
  | Return a => k a
  | Raise e => Raise e
  end.

Definition raises {A : Type} (m : outcome A) : Prop :=
  exists e, m = Raise e.

Definition returns {A : Type} (m : outcome A) : Prop :=
  exists a, m = Return a.

(** A keyword argument left out at the call site is [None]; the callee
    then takes the default written in its signature. *)
Definition kwarg {A : Type} (default : A) (given : option A) : A :=
  match given with
  | Some a => a
  | None => default
  end.

End Py.

Export Py.

Declare Scope py_scope.
Delimit Scope py_scope with py.
Notation "x <- m ;; k" := (bind m (fun x => k))
  (at level 61, m at next level, right associativity) : py_scope.
Local Open Scope py_scope.

(** ** NumPy and pandas values *)

Definition vec := list float.

(** A [pd.DataFrame] of floats: the column labels and the rows.  Its shape
    is [(length rows, length columns)]. *)
Record DataFrame : Type := mkFrame {
  columns : list string;
  rows : list vec
}.

(** The invariant of the type: every row has one entry per column. *)
Definition frame_wf (df : DataFrame) : Prop :=
  Forall (fun r => length r = length (columns df)) (rows df).

Definition square (df : DataFrame) (n : nat) : Prop :=
  length (rows df) = n /\ length (columns df) = n /\ frame_wf df.

(** A [pd.Series] of floats. *)
Record Series : Type := mkSeries {
  s_index : list string;
  s_values : vec
}.

Module Np.

Definition nan : float := PrimFloat.nan.

Definition float_of_nat (k : nat) : float :=
  PrimFloat.of_uint63 (Uint63.of_Z (Z.of_nat k)).

Definition float_of_Z (k : Z) : float :=
  if (k <? 0)%Z then (- PrimFloat.of_uint63 (Uint63.of_Z (- k)))%float
  else PrimFloat.of_uint63 (Uint63.of_Z k).

(** The sum of products of two equally long vectors, accumulated from
    [0.0] from the first index to the last.  (NumPy leaves the order of
    the reduction to the BLAS at hand; nothing proved below rests on it.) *)
Definition dot_prod (u v : vec) : float :=
  fold_left (fun acc p => (acc + fst p * snd p)%float) (combine u v) 0%float.

(** [np.dot(u, v)] on two one-dimensional arrays. *)
Definition dot (u v : vec) : outcome float :=
  if Nat.eqb (length u) (length v) then Return (dot_prod u v)
  else Raise (ValueError "shapes not aligned").

(** [s @ w] on a [pd.Series], that is [Series.dot]. *)
Definition series_dot (s w : vec) : outcome float :=
  if Nat.eqb (length s) (length w) then Return (dot_prod s w)
  else Raise (Exception "Dot product shape mismatch").

(** [np.dot(df, w)] and [df @ w]: the matrix times a column vector. *)
Definition matvec (df : DataFrame) (w : vec) : outcome vec :=
  if Nat.eqb (length (columns df)) (length w)
  then Return (map (fun r => dot_prod r w) (rows df))
  else Raise (ValueError "shapes not aligned").

Definition column (df : DataFrame) (j : nat) : vec :=
  map (fun r => nth j r 0%float) (rows df).

(** [w.T @ df]: a row vector times the matrix, one entry per column;
    pandas hands back a [pd.Series]. *)
Definition vecmat (w : vec) (df : DataFrame) : outcome vec :=
  if Nat.eqb (length w) (length (rows df))
  then Return (map (fun j => dot_prod w (column df j)) (seq 0 (length (columns df))))
  else Raise (ValueError "shapes not aligned").

(** [np.sum] of an [ndarray]. *)
Definition sum (v : vec) : float :=
  fold_left (fun acc a => (acc + a)%float) v 0%float.

(** [np.sum] of a [pd.Series] is [Series.sum], which skips the entries
    that are NaN ([skipna=True]). *)
Definition series_sum (v : vec) : float :=
  sum (map (fun a => if PrimFloat.is_nan a then 0%float else a) v).

Fixpoint zip_with (f : float -> float -> float) (u v : vec) : vec :=
  match u, v with
  | a :: u', b :: v' => f a b :: zip_with f u' v'
  | _, _ => []
  end.

(** Element-wise arithmetic on two arrays of one length.  (NumPy also
    stretches an operand of length one; the optimizers never build one
    from well-shaped input, and the model raises there.) *)
Definition elementwise (f : float -> float -> float) (u v : vec) : outcome vec :=
  if Nat.eqb (length u) (length v) then Return (zip_with f u v)
  else Raise (ValueError "operands could not be broadcast together").

(** [np.ones(n) / n] *)
Definition ones_over (n : nat) : vec :=
  map (fun o => (o / float_of_nat n)%float) (repeat 1%float n).

Fixpoint diag_from (k : nat) (rs : list vec) : vec :=
  match rs with
  | [] => []
  | r :: rs' =>
      match nth_error r k with
      | Some a => a :: diag_from (S k) rs'
      | None => []
      end
  end.

(** [np.diag(df)]: the main diagonal. *)
Definition diag (df : DataFrame) : vec := diag_from 0 (rows df).

Fixpoint set_last (y : vec) (stop : float) : vec :=
  match y with
  | [] => []
  | [_] => [stop]
  | a :: y' => a :: set_last y' stop
  end.

(** [np.linspace(start, stop, num)] with [endpoint=True], as NumPy's
    [function_base.linspace] computes it. *)
Definition linspace (start stop : float) (num : Z) : outcome vec :=
  if (num <? 0)%Z then Raise (ValueError "Number of samples must be non-negative")
  else
    let div := (num - 1)%Z in
    let y := map float_of_nat (seq 0 (Z.to_nat num)) in
    let delta := (stop - start)%float in
    let y :=
      if (0 <? div)%Z then
        let step := (delta / float_of_Z div)%float in
        if (step =? 0)%float
        then map (fun a => (a / float_of_Z div * delta)%float) y
        else map (fun a => (a * step)%float) y
      else map (fun a => (a * delta)%float) y in
    let y := map (fun a => (a + start)%float) y in
    Return (if (1 <? num)%Z then set_last y stop else y).

(** [pd.Series(values, index=index)] *)
Definition mk_series (values : vec) (index : list string) : outcome Series :=
  if Nat.eqb (length values) (length index) then Return (mkSeries index values)
  else Raise (ValueError "Length of values does not match length of index").

End Np.

(** ** SciPy's [minimize] *)

Module Scipy.

Inductive constraint_type : Type := c_eq | c_ineq.

(** A constraint dictionary [{'type': ..., 'fun': ...}]. *)
Record constraint : Type := mkConstraint {
  c_type : constraint_type;
  c_fun : vec -> outcome float
}.

(** The fields of [scipy.optimize.OptimizeResult] the optimizers read. *)
Record OptimizeResult : Type := mkResult {
  x : vec;
  success : bool;
  message : string
}.

Definition bounds := option (list (float * float)).

(** [minimize(fun, x0, method=..., bounds=..., constraints=...)].  The
    call may itself raise (when the objective does, for one). *)
Class Solver : Type := {
  minimize :
    (vec -> outcome float) -> vec -> string -> bounds -> list constraint ->
    outcome OptimizeResult
}.

End Scipy.

(** [None if short_allowed else [(0.0, 1.0)] * n] *)
Definition box_bounds (short_allowed : bool) (n : nat) : Scipy.bounds :=
  if short_allowed then None else Some (repeat (0%float, 1%float) n).

(** [{'type': 'eq', 'fun': lambda w: np.sum(w) - 1}] *)
Definition budget_constraint : Scipy.constraint :=
  Scipy.mkConstraint Scipy.c_eq (fun w => Return (Np.sum w - 1)%float).

(** ** [optimization/markowitz.py] *)

Module Markowitz.

Record MarkowitzOptimizer : Type := mkMarkowitz {
  mu : vec;
  Sigma : DataFrame;
  rf : float;
  num_assets : nat
}.

(** [MarkowitzOptimizer.__init__]; [expected_returns] is a [pd.Series],
    read only through its values. *)
Definition init (expected_returns : vec) (cov_matrix : DataFrame)
    (risk_free_rate : option float) : MarkowitzOptimizer :=
  {| mu := expected_returns;
     Sigma := cov_matrix;
     rf := kwarg 0%float risk_free_rate;
     num_assets := length expected_returns |}.

(** [np.sqrt(np.dot(w.T, np.dot(self.Sigma, w)))] *)
Definition portfolio_volatility (self : MarkowitzOptimizer) (w : vec) : outcome float :=
  sw <- Np.matvec (Sigma self) w ;;
  q <- Np.dot w sw ;;
  Return (PrimFloat.sqrt q).

(** [_portfolio_performance].  The frontier passes it the result of a
    sub-solve, which is [None] when that solve did not converge:
    [np.dot(None, mu)] multiplies [None] by a float; over no asset at all
    the first failure is the attribute [None.T]. *)
Definition _portfolio_performance (self : MarkowitzOptimizer) (weights : option vec)
    : outcome (float * float) :=
  match weights with
  | None =>
      match mu self with
      | [] => Raise (AttributeError "'NoneType' object has no attribute 'T'")
      | _ :: _ => Raise (TypeError "unsupported operand type(s) for *: 'NoneType' and 'float'")
      end
  | Some w =>
      ret <- Np.dot w (mu self) ;;
      vol <- portfolio_volatility self w ;;
      Return (ret, vol)
  end.

(** [_check_weights], which no optimizer calls, is modelled in
    [WeightCheck] below. *)

Section WithSolver.

Context {solver : Scipy.Solver}.

Definition init_guess (self : MarkowitzOptimizer) : vec :=
  Np.ones_over (num_assets self).

Definition min_variance_portfolio (self : MarkowitzOptimizer)
    (short_allowed : option bool) : outcome (option vec) :=
  let short_allowed := kwarg false short_allowed in
  let bounds := box_bounds short_allowed (num_assets self) in
  let constraints := [budget_constraint] in
  result <- Scipy.minimize (portfolio_volatility self) (init_guess self)
              "SLSQP" bounds constraints ;;
  Return (if Scipy.success result then Some (Scipy.x result) else None).

(** [- (ret - self.rf) / vol]: the unary minus applies to the numerator. *)
Definition neg_sharpe_ratio (self : MarkowitzOptimizer) (w : vec) : outcome float :=
  rv <- _portfolio_performance self (Some w) ;;
  let '(ret, vol) := rv in
  Return (- (ret - rf self) / vol)%float.

Definition tangency_portfolio (self : MarkowitzOptimizer)
    (short_allowed : option bool) : outcome (option vec) :=
  let short_allowed := kwarg false short_allowed in
  let bounds := box_bounds short_allowed (num_assets self) in
  let constraints := [budget_constraint] in
  result <- Scipy.minimize (neg_sharpe_ratio self) (init_guess self)
              "SLSQP" bounds constraints ;;
  Return (if Scipy.success result then Some (Scipy.x result) else None).

(** The two constraints of a frontier point: full investment and the
    target return. *)
Definition frontier_constraints (self : MarkowitzOptimizer) (target_ret : float)
    : list Scipy.constraint :=
  [ budget_constraint;
    Scipy.mkConstraint Scipy.c_eq
      (fun w => d <- Np.dot w (mu self) ;; Return (d - target_ret)%float) ].

(** The [for target_ret in return_range] loop; [frontier_vols] is the
    list the loop appends to. *)
Fixpoint frontier_loop (self : MarkowitzOptimizer) (guess : vec) (bounds : Scipy.bounds)
    (return_range : vec) (frontier_vols : vec) : outcome vec :=
  match return_range with
  | [] => Return frontier_vols
  | target_ret :: rest =>
      result <- Scipy.minimize (portfolio_volatility self) guess
                  "SLSQP" bounds (frontier_constraints self target_ret) ;;
      if Scipy.success result then
        vol <- portfolio_volatility self (Scipy.x result) ;;
        frontier_loop self guess bounds rest (frontier_vols ++ [vol])
      else
        frontier_loop self guess bounds rest (frontier_vols ++ [Np.nan])
  end.

(** The [if return_range is None] block: both sub-solves run with their
    default bounds, whatever [short_allowed] the frontier was given. *)
Definition default_return_range (self : MarkowitzOptimizer) (points : Z) : outcome vec :=
  mvp <- min_variance_portfolio self None ;;
  p1 <- _portfolio_performance self mvp ;;
  let min_ret := fst p1 in
  tan <- tangency_portfolio self None ;;
  p2 <- _portfolio_performance self tan ;;
  let max_ret := fst p2 in
  Np.linspace min_ret max_ret points.

Definition efficient_frontier (self : MarkowitzOptimizer)
    (return_range : option vec) (short_allowed : option bool) (points : option Z)
    : outcome (vec * vec) :=
  let short_allowed := kwarg false short_allowed in
  let points := kwarg 50%Z points in
  return_range <-
    match return_range with
    | None => default_return_range self points
    | Some grid => Return grid
    end ;;
  let guess := init_guess self in
  let bounds := box_bounds short_allowed (num_assets self) in
  frontier_vols <- frontier_loop self guess bounds return_range [] ;;
  Return (return_range, frontier_vols).

End WithSolver.

End Markowitz.

(** ** [optimization/risk_parity.py] *)

Module RiskParity.

Record RiskParityOptimizer : Type := mkRiskParity {
  Sigma : DataFrame;
  assets : list string;
  n : nat;
  risk_budget : vec
}.

(** [RiskParityOptimizer.__init__]: [np.array(risk_budget)] keeps the
    numbers it is given. *)
Definition init (cov_matrix : DataFrame) (risk_budget : option vec)
    : RiskParityOptimizer :=
  let assets := columns cov_matrix in
  let n := length assets in
  {| Sigma := cov_matrix;
     assets := assets;
     n := n;
     risk_budget :=
       match risk_budget with
       | None => Np.ones_over n
       | Some b => b
       end |}.

(** [np.sqrt(weights.T @ self.Sigma @ weights)]: the product associates to
    the left. *)
Definition _portfolio_volatility (self : RiskParityOptimizer) (weights : vec)
    : outcome float :=
  ws <- Np.vecmat weights (Sigma self) ;;
  q <- Np.series_dot ws weights ;;
  Return (PrimFloat.sqrt q).

Definition _risk_contributions (self : RiskParityOptimizer) (weights : vec)
    : outcome vec :=
  portfolio_vol <- _portfolio_volatility self weights ;;
  marginal_contrib <- Np.matvec (Sigma self) weights ;;
  risk_contrib <- Np.elementwise PrimFloat.mul weights marginal_contrib ;;
  Return (map (fun r => (r / portfolio_vol)%float) risk_contrib).

(** [np.sum((risk_contrib - self.risk_budget) ** 2)]; the squares are a
    [pd.Series], since [self.Sigma @ weights] is one. *)
Definition _objective (self : RiskParityOptimizer) (weights : vec) : outcome float :=
  risk_contrib <- _risk_contributions self weights ;;
  dev <- Np.elementwise PrimFloat.sub risk_contrib (risk_budget self) ;;
  Return (Np.series_sum (map (fun d => (d * d)%float) dev)).

Section WithSolver.

Context {solver : Scipy.Solver}.

Definition optimize (self : RiskParityOptimizer) (short_allowed : option bool)
    : outcome Series :=
  let short_allowed := kwarg false short_allowed in
  let init_weights := Np.ones_over (n self) in
  let bounds := box_bounds short_allowed (n self) in
  let constraints := [budget_constraint] in
  result <- Scipy.minimize (_objective self) init_weights "SLSQP" bounds constraints ;;
  if Scipy.success result then Np.mk_series (Scipy.x result) (assets self)
  else Raise (ValueError ("Optimization failed: " ++ Scipy.message result)).

End WithSolver.

End RiskParity.

(** ** [optimization/max_diversification.py] *)

Module MaxDiversification.

Record MaxDiversificationOptimizer : Type := mkMaxDiv {
  Sigma : DataFrame;
  assets : list string;
  n : nat;
  sigma_individual : vec
}.

(** [MaxDiversificationOptimizer.__init__] *)
Definition init (cov_matrix : DataFrame) : MaxDiversificationOptimizer :=
  {| Sigma := cov_matrix;
     assets := columns cov_matrix;
     n := length (columns cov_matrix);
     sigma_individual := map PrimFloat.sqrt (Np.diag cov_matrix) |}.

Definition _portfolio_volatility (self : MaxDiversificationOptimizer) (weights : vec)
    : outcome float :=
  ws <- Np.vecmat weights (Sigma self) ;;
  q <- Np.series_dot ws weights ;;
  Return (PrimFloat.sqrt q).

Definition _diversification_ratio (self : MaxDiversificationOptimizer) (weights : vec)
    : outcome float :=
  weighted_vols <- Np.dot weights (sigma_individual self) ;;
  portfolio_vol <- _portfolio_volatility self weights ;;
  Return (weighted_vols / portfolio_vol)%float.

Definition _neg_objective (self : MaxDiversificationOptimizer) (weights : vec)
    : outcome float :=
  dr <- _diversification_ratio self weights ;;
  Return (- dr)%float.

Section WithSolver.

Context {solver : Scipy.Solver}.

Definition optimize (self : MaxDiversificationOptimizer) (short_allowed : option bool)
    : outcome Series :=
  let short_allowed := kwarg false short_allowed in
  let init_weights := Np.ones_over (n self) in
  let bounds := box_bounds short_allowed (n self) in
  let constraints := [budget_constraint] in
  result <- Scipy.minimize (_neg_objective self) init_weights "SLSQP" bounds constraints ;;
  if Scipy.success result then Np.mk_series (Scipy.x result) (assets self)
  else Raise (ValueError ("Optimization failed: " ++ Scipy.message result)).

End WithSolver.

End MaxDiversification.

(** ** A small solver and sample data

    [vertex_search] is a deterministic stand-in for SLSQP used to run the
    optimizers on concrete data: it tries the initial guess and the
    single-asset portfolios, keeps those at which every constraint
    evaluates to zero, and returns the one with the least objective. *)

Module Sample.

Definition unit_vector (n i : nat) : vec :=
  map (fun j => if Nat.eqb j i then 1%float else 0%float) (seq 0 n).

Definition candidates (x0 : vec) : list vec :=
  x0 :: map (unit_vector (length x0)) (seq 0 (length x0)).

Definition feasible (cs : list Scipy.constraint) (w : vec) : bool :=
  forallb (fun c => match Scipy.c_fun c w with
                    | Return v => (v =? 0)%float
                    | Raise _ => false
                    end) cs.

Definition better (f : vec -> outcome float) (best : option (vec * float)) (w : vec)
    : option (vec * float) :=
  match f w with
  | Return v =>
      match best with
      | None => Some (w, v)
      | Some (_, b) => if (v <? b)%float then Some (w, v) else best
      end
  | Raise _ => best
  end.

Definition vertex_search : Scipy.Solver :=
  {| Scipy.minimize f x0 _ _ cs :=
       match fold_left (better f) (filter (feasible cs) (candidates x0)) None with
       | Some (w, _) =>
           Return (Scipy.mkResult w true "Optimization terminated successfully")
       | None =>
           Return (Scipy.mkResult x0 false "Positive directional derivative for linesearch")
       end |}.

(** A solver that never converges. *)
Definition stalled : Scipy.Solver :=
  {| Scipy.minimize _ x0 _ _ _ :=
       Return (Scipy.mkResult x0 false "Iteration limit reached") |}.

Definition two_assets : DataFrame :=
  mkFrame ["A"; "B"] [[0.25%float; 0%float]; [0%float; 1%float]].

Definition two_returns : vec := [0.25%float; 1%float].

Definition markowitz2 : Markowitz.MarkowitzOptimizer :=
  Markowitz.init two_returns two_assets None.

(** A matrix that is not positive semi-definite, and one with no risk. *)
Definition negative_variance : DataFrame := mkFrame ["A"] [[(-1)%float]].

Definition zero_variance : DataFrame :=
  mkFrame ["A"; "B"] [[0%float; 0%float]; [0%float; 0%float]].

End Sample.

(** ** Specification-side quantities *)

Module Ieee.

(** The IEEE classes of the numbers proper: zeros, normal and subnormal. *)
Definition finite_sf (f : spec_float) : bool :=
  match f with
  | S754_zero _ | S754_finite _ _ _ => true
  | _ => false
  end.

End Ieee.

(** ** The frontier sweep, point by point *)

Module Frontier.

Import Markowitz.

Section WithSolver.

Context {solver : Scipy.Solver}.

(** The sub-problem of one grid value: least volatility under full
    investment and the target return, started from the uniform vector. *)
Definition point_solve (self : MarkowitzOptimizer) (short_allowed : bool)
    (target_ret : float) : outcome Scipy.OptimizeResult :=
  let n := num_assets self in
  Scipy.minimize (portfolio_volatility self)
    (repeat (1 / Np.float_of_nat n)%float n)
    "SLSQP" (box_bounds short_allowed n) (frontier_constraints self target_ret).

(** The entry of one grid value: the volatility of the solution, or NaN
    when the sub-problem did not converge. *)
Definition point_volatility (self : MarkowitzOptimizer) (short_allowed : bool)
    (target_ret : float) : outcome float :=
  result <- point_solve self short_allowed target_ret ;;
  if Scipy.success result then portfolio_volatility self (Scipy.x result)
  else Return Np.nan.

(** The grid values solved one after the other, none depending on another. *)
Fixpoint solve_each (f : float -> outcome float) (grid : vec) : outcome vec :=
  match grid with
  | [] => Return []
  | t :: rest =>
      v <- f t ;;
      vs <- solve_each f rest ;;
      Return (v :: vs)
  end.

(** The grid of a call: the one given, or the one derived. *)
Definition frontier_grid (self : MarkowitzOptimizer) (return_range : option vec)
    (points : option Z) : outcome vec :=
  match return_range with
  | None => default_return_range self (kwarg 50%Z points)
  | Some grid => Return grid
  end.

End WithSolver.

(** The multiplier [np.linspace] applies to [0, 1, ..., num-1]. *)
Definition linspace_step (start stop : float) (num : Z) : float :=
  if (0 <? num - 1)%Z then ((stop - start) / Np.float_of_Z (num - 1))%float
  else (stop - start)%float.

(** The [i]-th of [num] evenly spaced values: [i] steps of
    [(stop - start) / (num - 1)] above [start]. *)
Definition evenly_spaced (start stop : float) (num : Z) (i : nat) : float :=
  let step := ((stop - start) / Np.float_of_Z (num - 1))%float in
  if (step =? 0)%float
  then (Np.float_of_nat i / Np.float_of_Z (num - 1) * (stop - start) + start)%float
  else (Np.float_of_nat i * step + start)%float.

End Frontier.

(** ** The objectives, index by index *)

Module Pointwise.

(** Whether no entry is NaN. *)
Definition all_numbers (v : vec) : bool :=
  forallb (fun a => negb (PrimFloat.is_nan a)) v.

(** [w_i * (Sigma w)_i / vol]: the risk contribution of asset [i]. *)
Definition risk_contribution (cov : DataFrame) (w : vec) (vol : float) (i : nat) : float :=
  (nth i w 0 * Np.dot_prod (nth i (rows cov) []) w / vol)%float.

(** [(riskContribution_i - budget_i)^2] for [i] from [0] to [n-1]. *)
Definition squared_deviations (cov : DataFrame) (w b : vec) (vol : float) (n : nat) : vec :=
  map (fun i => let d := (risk_contribution cov w vol i - nth i b 0)%float in (d * d)%float)
      (seq 0 n).

(** The sum over [i] of [(riskContribution_i - budget_i)^2]. *)
Definition sum_of_squared_deviations (cov : DataFrame) (w b : vec) (vol : float) (n : nat)
    : float :=
  fold_left
    (fun acc i =>
       let d := (risk_contribution cov w vol i - nth i b 0)%float in (acc + d * d)%float)
    (seq 0 n) 0%float.

(** [sqrt(Sigma_ii)]: the volatility of asset [i] held alone. *)
Definition standalone_volatility (cov : DataFrame) (i : nat) : float :=
  PrimFloat.sqrt (nth i (nth i (rows cov) []) 0%float).

(** [w^T (Sigma w)], as the Markowitz optimizer forms it. *)
Definition radicand (cov : DataFrame) (w : vec) : float :=
  Np.dot_prod w (map (fun r => Np.dot_prod r w) (rows cov)).

(** [(w^T Sigma) w], as the other two optimizers form it. *)
Definition radicand_left (cov : DataFrame) (w : vec) : float :=
  Np.dot_prod (map (fun j => Np.dot_prod w (Np.column cov j))
                   (seq 0 (length (columns cov)))) w.

End Pointwise.

(** ** Facts about binary64 arithmetic

    Each follows from the specification of the primitive operations
    ([FloatAxioms]) by cases on the IEEE class of the operands. *)

Module FloatFacts.

Import Ieee.

Lemma Prim2SF_zero : Prim2SF 0%float = S754_zero false.
Proof. reflexivity. Qed.

Lemma SFeqb_refl f : f <> S754_nan -> SFeqb f f = true.
Proof.
  destruct f as [s|s| |s m e]; intros H; try congruence; unfold SFeqb, SFcompare.
  - reflexivity.
  - destruct s; reflexivity.
  - destruct s; rewrite Z.compare_refl, Pos.compare_refl; reflexivity.
Qed.

Lemma is_nan_spec a : PrimFloat.is_nan a = true <-> Prim2SF a = S754_nan.
Proof.
  unfold PrimFloat.is_nan. rewrite eqb_spec. split.
  - intros H. destruct (Prim2SF a) eqn:E; try reflexivity;
      rewrite SFeqb_refl in H by congruence; discriminate.
  - intros ->. reflexivity.
Qed.

Lemma is_nan_false a : PrimFloat.is_nan a = false <-> Prim2SF a <> S754_nan.
Proof.
  rewrite <- is_nan_spec. destruct (PrimFloat.is_nan a); split; congruence.
Qed.

Lemma is_infinity_spec a :
  PrimFloat.is_infinity a = true <-> exists s, Prim2SF a = S754_infinity s.
Proof.
  unfold PrimFloat.is_infinity. rewrite eqb_spec, abs_spec.
  change (Prim2SF infinity) with (S754_infinity false).
  destruct (Prim2SF a) as [s|s| |s m e]; simpl; split;
    try (intros H; discriminate H); try (intros [s' H]; discriminate H).
  - intros _. now exists s.
  - reflexivity.
Qed.

Lemma is_finite_spec a : PrimFloat.is_finite a = true <-> finite_sf (Prim2SF a) = true.
Proof.
  unfold PrimFloat.is_finite.
  destruct (PrimFloat.is_nan a) eqn:En.
  - apply is_nan_spec in En. rewrite En. simpl. split; discriminate.
  - apply is_nan_false in En.
    destruct (PrimFloat.is_infinity a) eqn:Ei.
    + apply is_infinity_spec in Ei. destruct Ei as [s Ei]. rewrite Ei.
      simpl. split; discriminate.
    + simpl. split; intros _; [|reflexivity].
      destruct (Prim2SF a) as [s|s| |s m e] eqn:E; try reflexivity.
      * assert (PrimFloat.is_infinity a = true) as Hi
          by (apply is_infinity_spec; exists s; exact E).
        rewrite Hi in Ei. discriminate Ei.
      * exfalso. apply En. reflexivity.
Qed.

(** The square root of a negative number is NaN. *)
Lemma sqrt_negative q : (q <? 0)%float = true -> PrimFloat.sqrt q = nan.
Proof.
  rewrite ltb_spec, Prim2SF_zero. intros H.
  apply Prim2SF_inj. rewrite sqrt_spec.
  change (Prim2SF nan) with S754_nan.
  destruct (Prim2SF q) as [s|s| |s m e]; try discriminate H;
    destruct s; try discriminate H; reflexivity.
Qed.

Lemma eqb_zero_spec v : (v =? 0)%float = true <-> exists s, Prim2SF v = S754_zero s.
Proof.
  rewrite eqb_spec, Prim2SF_zero.
  destruct (Prim2SF v) as [s|s| |s m e]; simpl; split;
    try (intros H; discriminate H); try (intros [s' H]; discriminate H).
  - intros _. now exists s.
  - reflexivity.
  - unfold SFeqb, SFcompare. destruct s; discriminate.
  - unfold SFeqb, SFcompare. destruct s; discriminate.
Qed.

(** A quotient by zero is NaN or an infinity. *)
Lemma div_by_zero a v :
  (v =? 0)%float = true -> PrimFloat.is_finite (a / v) = false.
Proof.
  intros H. apply eqb_zero_spec in H. destruct H as [s Hv].
  destruct (PrimFloat.is_finite (a / v)) eqn:E; [|reflexivity].
  apply is_finite_spec in E. rewrite div_spec, Hv in E.
  destruct (Prim2SF a) as [s'|s'| |s' m e]; discriminate E.
Qed.

(** Adding a zero to a number gives a float equal to it. *)
Lemma zero_add_eqb z a s :
  Prim2SF z = S754_zero s -> PrimFloat.is_nan a = false -> (z + a =? a)%float = true.
Proof.
  intros Hz Ha. apply is_nan_false in Ha.
  rewrite eqb_spec, add_spec, Hz.
  destruct (Prim2SF a) as [s'|s'| |s' m e] eqn:E; try congruence.
  - destruct s, s'; reflexivity.
  - apply SFeqb_refl. discriminate.
  - apply SFeqb_refl. discriminate.
Qed.

Lemma zero_mul_finite z d s :
  Prim2SF z = S754_zero s -> PrimFloat.is_finite d = true ->
  exists s', Prim2SF (z * d) = S754_zero s'.
Proof.
  intros Hz Hd. apply is_finite_spec in Hd. rewrite mul_spec, Hz.
  destruct (Prim2SF d) as [s'|s'| |s' m e]; try discriminate Hd; simpl; eauto.
Qed.

(** The first point of a grid with a finite step. *)
Lemma first_point_step d a :
  PrimFloat.is_finite d = true -> PrimFloat.is_nan a = false ->
  (0 * d + a =? a)%float = true.
Proof.
  intros Hd Ha.
  destruct (zero_mul_finite 0%float d false Prim2SF_zero Hd) as [s' Hs].
  eapply zero_add_eqb; eassumption.
Qed.

(** The first point of a grid whose step rounds to zero. *)
Lemma first_point_zero_step delta fd a :
  (delta / fd =? 0)%float = true -> PrimFloat.is_nan a = false ->
  (0 / fd * delta + a =? a)%float = true.
Proof.
  intros Hs Ha. apply eqb_zero_spec in Hs. destruct Hs as [s Hs].
  rewrite div_spec in Hs.
  assert (exists s', Prim2SF (0 / fd * delta) = S754_zero s') as [s' Hz].
  { rewrite mul_spec, div_spec, Prim2SF_zero.
    destruct (Prim2SF delta) as [sd|sd| |sd md ed], (Prim2SF fd) as [sf|sf| |sf mf ef];
      try discriminate Hs; simpl; eauto. }
  eapply zero_add_eqb; eassumption.
Qed.

End FloatFacts.

(** ** Lists and outcomes *)

Lemma bind_Return {A B : Type} (m : outcome A) (k : A -> outcome B) (b : B) :
  (a <- m ;; k a) = Return b -> exists a, m = Return a /\ k a = Return b.
Proof.
  destruct m as [a|e]; simpl; intros H; [eauto | discriminate H].
Qed.

Lemma ones_over_repeat (n : nat) :
  Np.ones_over n = repeat (1 / Np.float_of_nat n)%float n.
Proof.
  unfold Np.ones_over. now rewrite map_repeat.
Qed.

Lemma Forall2_nth_error_l {A B : Type} (R : A -> B -> Prop) (l : list A) (l' : list B) :
  Forall2 R l l' ->
  forall i a, nth_error l i = Some a -> exists b, nth_error l' i = Some b /\ R a b.
Proof.
  induction 1 as [|a0 b0 l l' Hab _ IH]; intros i a Hi.
  - destruct i; discriminate Hi.
  - destruct i as [|i]; simpl in Hi |- *.
    + injection Hi as <-. eauto.
    + eauto.
Qed.

Lemma set_last_length (y : vec) (stop : float) :
  length (Np.set_last y stop) = length y.
Proof.
  induction y as [|a [|b y'] IH]; simpl in *; congruence.
Qed.

Lemma set_last_nth_error_last (y : vec) (stop : float) :
  y <> [] -> nth_error (Np.set_last y stop) (length y - 1) = Some stop.
Proof.
  induction y as [|a [|b y'] IH]; intros Hy; try congruence; try reflexivity.
  specialize (IH ltac:(discriminate)).
  change (Np.set_last (a :: b :: y') stop) with (a :: Np.set_last (b :: y') stop).
  simpl length in *. replace (S (S (length y')) - 1) with (S (S (length y') - 1)) by lia.
  exact IH.
Qed.

Lemma set_last_nth_error_before (y : vec) (stop : float) (i : nat) :
  i < length y - 1 -> nth_error (Np.set_last y stop) i = nth_error y i.
Proof.
  revert i. induction y as [|a [|b y'] IH]; intros i Hi; simpl in Hi; try lia.
  change (Np.set_last (a :: b :: y') stop) with (a :: Np.set_last (b :: y') stop).
  destruct i as [|i]; [reflexivity|].
  change (nth_error (Np.set_last (b :: y') stop) i = nth_error (b :: y') i).
  apply IH. simpl. lia.
Qed.

Module PointwiseFacts.

Import Pointwise.

Lemma zip_with_length (f : float -> float -> float) (u v : vec) :
  length u = length v -> length (Np.zip_with f u v) = length u.
Proof.
  revert v. induction u as [|a u IH]; intros [|b v] H; simpl in *; try congruence.
  f_equal. apply IH. congruence.
Qed.

Lemma zip_with_pointwise (f : float -> float -> float) (u v : vec) :
  length u = length v ->
  Np.zip_with f u v =
  map (fun i => f (nth i u 0%float) (nth i v 0%float)) (seq 0 (length u)).
Proof.
  revert v. induction u as [|a u IH]; intros [|b v] H; simpl in *; try congruence.
  f_equal. rewrite <- seq_shift, map_map. apply IH. congruence.
Qed.

Lemma map_pointwise {A : Type} (g : A -> float) (l : list A) (d : A) :
  map g l = map (fun i => g (nth i l d)) (seq 0 (length l)).
Proof.
  induction l as [|a l IH]; simpl; [reflexivity|].
  f_equal. rewrite <- seq_shift, map_map. exact IH.
Qed.

Lemma map_seq_ext {A : Type} (f g : nat -> A) (n : nat) :
  (forall i, i < n -> f i = g i) -> map f (seq 0 n) = map g (seq 0 n).
Proof.
  intros H. apply map_ext_in. intros i Hi. apply in_seq in Hi. apply H. lia.
Qed.

Lemma sum_map {A : Type} (g : A -> float) (l : list A) (a0 : float) :
  fold_left (fun acc a => (acc + a)%float) (map g l) a0 =
  fold_left (fun acc i => (acc + g i)%float) l a0.
Proof.
  revert a0. induction l as [|a l IH]; intros a0; simpl; [reflexivity | apply IH].
Qed.

Lemma series_sum_numbers (v : vec) :
  all_numbers v = true -> Np.series_sum v = Np.sum v.
Proof.
  intros H. unfold Np.series_sum. f_equal.
  induction v as [|a v IH]; simpl in *; [reflexivity|].
  apply andb_prop in H. destruct H as [Ha Hv].
  apply negb_true_iff in Ha. rewrite Ha, IH by assumption. reflexivity.
Qed.

Lemma diag_from_pointwise (k : nat) (rs : list vec) :
  Forall (fun r => k + length rs <= length r) rs ->
  Np.diag_from k rs =
  map (fun i => nth (k + i) (nth i rs []) 0%float) (seq 0 (length rs)).
Proof.
  revert k. induction rs as [|r rs IH]; intros k H; simpl; [reflexivity|].
  inversion H as [|r' rs' Hr Hrs]; subst. simpl in Hr.
  destruct (nth_error r k) as [a|] eqn:E.
  - rewrite Nat.add_0_r. f_equal.
    + symmetry. now apply nth_error_nth.
    + rewrite IH.
      * rewrite <- seq_shift, map_map. apply map_ext. intros i.
        now rewrite Nat.add_succ_comm.
      * eapply Forall_impl; [|exact Hrs]. simpl. intros; lia.
  - apply nth_error_None in E. lia.
Qed.

End PointwiseFacts.

(** ** The optimizers run on the sample data *)

Module SampleRuns.

Import Sample.

Example frontier_of_two_assets :
  @Markowitz.efficient_frontier vertex_search markowitz2 None None (Some 4%Z) =
  Return ([0.25; 0.375; 0.5; 0.625]%float,
          [0.5%float; Np.nan; Np.nan; PrimFloat.sqrt 0.3125%float]).
Proof. vm_compute. reflexivity. Qed.

Example single_point_frontier :
  @Markowitz.efficient_frontier vertex_search markowitz2 None None (Some 1%Z) =
  Return ([0.25%float], [0.5%float]).
Proof. vm_compute. reflexivity. Qed.

Example stalled_risk_parity :
  @RiskParity.optimize stalled (RiskParity.init two_assets None) None =
  Raise (ValueError "Optimization failed: Iteration limit reached").
Proof. reflexivity. Qed.

Example objective_without_risk :
  RiskParity._objective (RiskParity.init zero_variance None) [0.5; 0.5]%float =
  Return 0%float.
Proof. vm_compute. reflexivity. Qed.

End SampleRuns.

(** ** The Markowitz optimizer *)

Module MarkowitzProps.

Import Markowitz Frontier.

Section WithSolver.

Context {solver : Scipy.Solver}.
Variable self : MarkowitzOptimizer.

Lemma portfolio_volatility_returns (w : vec) :
  length (columns (Sigma self)) = length w ->
  length (rows (Sigma self)) = length w ->
  portfolio_volatility self w =
  Return (PrimFloat.sqrt
            (Np.dot_prod w (map (fun r => Np.dot_prod r w) (rows (Sigma self))))).
Proof.
  intros Hc Hr. unfold portfolio_volatility, Np.matvec, Np.dot.
  rewrite Hc, Nat.eqb_refl. simpl.
  rewrite length_map, Hr, Nat.eqb_refl. reflexivity.
Qed.

Lemma portfolio_performance_return (w : vec) (ret vol : float) :
  _portfolio_performance self (Some w) = Return (ret, vol) ->
  ret = Np.dot_prod w (mu self) /\ portfolio_volatility self w = Return vol.
Proof.
  unfold _portfolio_performance, Np.dot.
  destruct (Nat.eqb (length w) (length (mu self))); simpl; [|discriminate].
  destruct (portfolio_volatility self w) as [v|e]; simpl; [|discriminate].
  intros H. injection H as <- <-. split; reflexivity.
Qed.

Lemma point_solve_call (short_allowed : bool) (t : float) :
  point_solve self short_allowed t =
  Scipy.minimize (portfolio_volatility self) (init_guess self) "SLSQP"
    (box_bounds short_allowed (num_assets self)) (frontier_constraints self t).
Proof.
  unfold point_solve, init_guess. now rewrite ones_over_repeat.
Qed.

(** The loop appends, to what it was handed, one entry per grid value. *)
Lemma frontier_loop_acc (short_allowed : bool) (grid acc : vec) :
  frontier_loop self (init_guess self) (box_bounds short_allowed (num_assets self)) grid acc =
  (vs <- solve_each (point_volatility self short_allowed) grid ;; Return (acc ++ vs)).
Proof.
  revert acc. induction grid as [|t rest IH]; intros acc; simpl.
  - now rewrite app_nil_r.
  - unfold point_volatility at 1. rewrite point_solve_call.
    destruct (Scipy.minimize _ _ _ _ _) as [r|e]; simpl; [|reflexivity].
    destruct (Scipy.success r).
    + destruct (portfolio_volatility self (Scipy.x r)) as [v|e]; simpl; [|reflexivity].
      rewrite IH. destruct (solve_each _ rest) as [vs|e]; simpl; [|reflexivity].
      now rewrite <- app_assoc.
    + simpl. rewrite IH. destruct (solve_each _ rest) as [vs|e]; simpl; [|reflexivity].
      now rewrite <- app_assoc.
Qed.

Lemma efficient_frontier_sweep (return_range : option vec)
    (short_allowed : option bool) (points : option Z) :
  efficient_frontier self return_range short_allowed points =
  (grid <- frontier_grid self return_range points ;;
   vols <- solve_each (point_volatility self (kwarg false short_allowed)) grid ;;
   Return (grid, vols)).
Proof.
  unfold efficient_frontier, frontier_grid.
  destruct (match return_range with
            | Some grid => Return grid
            | None => default_return_range self (kwarg 50%Z points)
            end) as [grid|e]; simpl; [|reflexivity].
  rewrite frontier_loop_acc.
  destruct (solve_each _ grid) as [vs|e]; reflexivity.
Qed.

Lemma solve_each_pointwise (f : float -> outcome float) (grid : vec) :
  (forall t, In t grid -> returns (f t)) ->
  exists vols, solve_each f grid = Return vols /\
               Forall2 (fun t v => f t = Return v) grid vols.
Proof.
  induction grid as [|t rest IH]; intros Hall; simpl.
  - exists []. split; [reflexivity | constructor].
  - destruct (Hall t (or_introl Logic.eq_refl)) as [v Hv].
    destruct IH as [vs [Hvs HF]]; [intros t' Ht'; apply Hall; now right|].
    exists (v :: vs). rewrite Hv, Hvs. split; [reflexivity | now constructor].
Qed.

End WithSolver.

(** *** [np.linspace] *)

Lemma linspace_returns (start stop : float) (num : Z) :
  (0 <= num)%Z ->
  exists grid, Np.linspace start stop num = Return grid /\
               length grid = Z.to_nat num.
Proof.
  intros Hnum. unfold Np.linspace. cbv zeta.
  destruct (Z.ltb_spec num 0); [lia|].
  eexists. split; [reflexivity|].
  destruct (1 <? num)%Z; destruct (0 <? num - 1)%Z; try destruct (_ =? _)%float;
    now rewrite ?set_last_length, !length_map, length_seq.
Qed.

Lemma linspace_last (start stop : float) (num : Z) (grid : vec) :
  (1 < num)%Z -> Np.linspace start stop num = Return grid ->
  nth_error grid (Z.to_nat num - 1) = Some stop.
Proof.
  intros Hnum. unfold Np.linspace. cbv zeta.
  destruct (Z.ltb_spec num 0); [lia|].
  destruct (Z.ltb_spec 1 num); [|lia].
  intros Hg. injection Hg as <-.
  set (y := map _ _).
  assert (length y = Z.to_nat num) as Hy.
  { subst y.
    destruct (0 <? num - 1)%Z; try destruct (_ =? _)%float;
      now rewrite !length_map, length_seq. }
  rewrite <- Hy. apply set_last_nth_error_last.
  intros ->. simpl in Hy. lia.
Qed.

Lemma linspace_interior (start stop : float) (num : Z) (grid : vec) (i : nat) :
  (1 < num)%Z -> Np.linspace start stop num = Return grid ->
  i < Z.to_nat num - 1 ->
  nth_error grid i = Some (evenly_spaced start stop num i).
Proof.
  intros Hnum. unfold Np.linspace, evenly_spaced. cbv zeta.
  destruct (Z.ltb_spec num 0); [lia|].
  destruct (Z.ltb_spec 1 num); [|lia].
  destruct (Z.ltb_spec 0 (num - 1)); [|lia].
  intros Hg Hi. injection Hg as <-.
  assert (nth_error (seq 0 (Z.to_nat num)) i = Some i) as Hseq.
  { rewrite nth_error_seq. destruct (Nat.ltb_spec i (Z.to_nat num)); [reflexivity | lia]. }
  rewrite set_last_nth_error_before.
  - destruct (_ =? _)%float; rewrite !nth_error_map, Hseq; reflexivity.
  - rewrite length_map.
    destruct (_ =? _)%float; rewrite !length_map, length_seq; exact Hi.
Qed.

Lemma linspace_first (start stop : float) (num : Z) (grid : vec) :
  (1 <= num)%Z -> Np.linspace start stop num = Return grid ->
  PrimFloat.is_nan start = false ->
  PrimFloat.is_finite (linspace_step start stop num) = true ->
  exists y0 rest, grid = y0 :: rest /\ (y0 =? start)%float = true.
Proof.
  intros Hnum Hgrid Hs Hfin.
  destruct (Z.eq_dec num 1) as [->|Hne].
  - injection Hgrid as <-. simpl. do 2 eexists. split; [reflexivity|].
    apply FloatFacts.first_point_step; assumption.
  - assert (1 < num)%Z as Hgt by lia.
    destruct (linspace_returns start stop num ltac:(lia)) as [g [Hg Hlen]].
    rewrite Hgrid in Hg. injection Hg as <-.
    pose proof (linspace_interior start stop num grid 0 Hgt Hgrid ltac:(lia)) as H0.
    destruct grid as [|y0 rest]; [discriminate H0|].
    injection H0 as ->. do 2 eexists. split; [reflexivity|].
    unfold evenly_spaced. unfold linspace_step in Hfin.
    destruct (Z.ltb_spec 0 (num - 1)); [|lia].
    destruct (_ =? 0)%float eqn:Estep.
    + apply FloatFacts.first_point_zero_step; assumption.
    + apply FloatFacts.first_point_step; assumption.
Qed.

End MarkowitzProps.

Module MarkowitzClaims.

Import Markowitz Frontier MarkowitzProps.

(** C3: when the constrained solve of the minimum-variance or of the
    tangency portfolio comes back without having converged, the solver
    returns normally, with no weight vector ([None]); a converged solve
    hands back its solution. *)
Theorem non_convergence_is_reported
    {solver : Scipy.Solver} (self : MarkowitzOptimizer) (short_allowed : option bool)
    (r_mvp r_tan : Scipy.OptimizeResult) :
  Scipy.minimize (portfolio_volatility self) (init_guess self) "SLSQP"
    (box_bounds (kwarg false short_allowed) (num_assets self)) [budget_constraint]
  = Return r_mvp ->
  Scipy.minimize (neg_sharpe_ratio self) (init_guess self) "SLSQP"
    (box_bounds (kwarg false short_allowed) (num_assets self)) [budget_constraint]
  = Return r_tan ->
  (Scipy.success r_mvp = false ->
   min_variance_portfolio self short_allowed = Return None) /\
  (Scipy.success r_tan = false ->
   tangency_portfolio self short_allowed = Return None) /\
  (Scipy.success r_mvp = true ->
   min_variance_portfolio self short_allowed = Return (Some (Scipy.x r_mvp))) /\
  (Scipy.success r_tan = true ->
   tangency_portfolio self short_allowed = Return (Some (Scipy.x r_tan))).
Proof.
  intros Hm Ht. unfold min_variance_portfolio, tangency_portfolio.
  rewrite Hm, Ht. simpl.
  repeat split; intros ->; reflexivity.
Qed.

Lemma non_convergence_is_reported_witness :
  @min_variance_portfolio Sample.stalled Sample.markowitz2 None = Return None /\
  @tangency_portfolio Sample.stalled Sample.markowitz2 (Some true) = Return None.
Proof.
  split.
  - apply (@non_convergence_is_reported Sample.stalled Sample.markowitz2 None
             _ _ Logic.eq_refl Logic.eq_refl).
    reflexivity.
  - apply (@non_convergence_is_reported Sample.stalled Sample.markowitz2 (Some true)
             _ _ Logic.eq_refl Logic.eq_refl).
    reflexivity.
Defined.

(** C9: with no explicit grid, a minimum-variance or tangency sub-solve
    that yields no weight vector makes [efficient_frontier] raise: the
    missing-entry treatment covers the grid points only, not the
    derivation of the grid's end points. *)
Theorem default_grid_failure_raises
    {solver : Scipy.Solver} (self : MarkowitzOptimizer)
    (short_allowed : option bool) (points : option Z) :
  min_variance_portfolio self None = Return None \/
  tangency_portfolio self None = Return None ->
  raises (efficient_frontier self None short_allowed points).
Proof.
  assert (exists e, _portfolio_performance self None = Raise e) as [e0 Hnone].
  { unfold _portfolio_performance. destruct (mu self); eexists; reflexivity. }
  intros H. unfold efficient_frontier, default_return_range.
  destruct H as [H|H].
  - rewrite H. cbn [bind]. rewrite Hnone. eexists; reflexivity.
  - destruct (min_variance_portfolio self None) as [mvp|e]; cbn [bind];
      [|eexists; reflexivity].
    destruct (_portfolio_performance self mvp) as [p1|e]; cbn [bind];
      [|eexists; reflexivity].
    rewrite H. cbn [bind]. rewrite Hnone. eexists; reflexivity.
Qed.

Lemma default_grid_failure_raises_witness :
  raises (@efficient_frontier Sample.stalled Sample.markowitz2 None None None).
Proof.
  apply (@default_grid_failure_raises Sample.stalled Sample.markowitz2 None None).
  left. reflexivity.
Defined.

(** C1: whatever the grid, given or derived, the sweep returns one entry
    per grid value, in the order of the grid; the entry of a grid value
    whose sub-problem did not converge is NaN, that of a converged one is
    the volatility of its solution, and the sweep goes on to the end. *)
Theorem frontier_sweep_partial_coverage
    {solver : Scipy.Solver} (self : MarkowitzOptimizer)
    (return_range : option vec) (short_allowed : option bool) (points : option Z)
    (grid : vec) :
  frontier_grid self return_range points = Return grid ->
  length (rows (Sigma self)) = num_assets self ->
  length (columns (Sigma self)) = num_assets self ->
  (forall t, In t grid ->
     exists r, point_solve self (kwarg false short_allowed) t = Return r /\
               length (Scipy.x r) = num_assets self) ->
  exists vols,
    efficient_frontier self return_range short_allowed points = Return (grid, vols) /\
    length vols = length grid /\
    forall i t r,
      nth_error grid i = Some t ->
      point_solve self (kwarg false short_allowed) t = Return r ->
      (Scipy.success r = false -> nth_error vols i = Some Np.nan) /\
      (Scipy.success r = true ->
       exists v, portfolio_volatility self (Scipy.x r) = Return v /\
                 nth_error vols i = Some v).
Proof.
  intros Hgrid Hrows Hcols Hsolve.
  destruct (solve_each_pointwise
              (point_volatility self (kwarg false short_allowed)) grid)
    as [vols [Hvols HF]].
  { intros t Ht. destruct (Hsolve t Ht) as [r [Hr Hlen]].
    unfold point_volatility. rewrite Hr. simpl.
    destruct (Scipy.success r); [|eexists; reflexivity].
    rewrite portfolio_volatility_returns by congruence. eexists; reflexivity. }
  exists vols. rewrite efficient_frontier_sweep, Hgrid. simpl. rewrite Hvols.
  split; [reflexivity|]. split; [symmetry; eapply Forall2_length; exact HF|].
  intros i t r Hi Hr.
  destruct (Forall2_nth_error_l _ _ _ HF i t Hi) as [v [Hv Hpt]].
  unfold point_volatility in Hpt. rewrite Hr in Hpt. simpl in Hpt.
  split; intros Hs; rewrite Hs in Hpt.
  - injection Hpt as <-. exact Hv.
  - exists v. split; assumption.
Qed.

Lemma frontier_sweep_partial_coverage_witness :
  exists vols,
    @efficient_frontier Sample.vertex_search Sample.markowitz2
      (Some [1; 0.5; 0.25]%float) (Some true) None
    = Return ([1; 0.5; 0.25]%float, vols) /\
    length vols = 3 /\
    nth_error vols 1 = Some Np.nan.
Proof.
  destruct (@frontier_sweep_partial_coverage Sample.vertex_search Sample.markowitz2
              (Some [1; 0.5; 0.25]%float) (Some true) None [1; 0.5; 0.25]%float
              Logic.eq_refl Logic.eq_refl Logic.eq_refl)
    as [vols [Hef [Hlen Hpt]]].
  - intros t [<-|[<-|[<-|[]]]]; eexists; (split; [vm_compute; reflexivity | reflexivity]).
  - exists vols. split; [exact Hef|]. split; [exact Hlen|].
    refine (proj1 (Hpt 1 0.5%float _ Logic.eq_refl _) _).
    + vm_compute. reflexivity.
    + reflexivity.
Defined.

(** C2: called without a grid, [efficient_frontier] takes the expected
    return of the minimum-variance portfolio as [min_ret] and that of the
    tangency portfolio as [max_ret], and sweeps [np.linspace(min_ret,
    max_ret, points)], [points] being 50 when left out: [points] values,
    the first equal to [min_ret] and (from two points on) the last to
    [max_ret], each a whole number of steps above [min_ret]; a single
    point is [min_ret].  Every grid value is solved on its own from the
    uniform vector [1/n]. *)
Theorem default_grid_is_evenly_spaced
    {solver : Scipy.Solver} (self : MarkowitzOptimizer)
    (short_allowed : option bool) (points : option Z)
    (w_mvp w_tan : vec) (min_ret vol_mvp max_ret vol_tan : float) :
  min_variance_portfolio self None = Return (Some w_mvp) ->
  tangency_portfolio self None = Return (Some w_tan) ->
  _portfolio_performance self (Some w_mvp) = Return (min_ret, vol_mvp) ->
  _portfolio_performance self (Some w_tan) = Return (max_ret, vol_tan) ->
  (0 <= kwarg 50%Z points)%Z ->
  let num := kwarg 50%Z points in
  efficient_frontier self None short_allowed None =
  efficient_frontier self None short_allowed (Some 50%Z) /\
  min_ret = Np.dot_prod w_mvp (mu self) /\
  max_ret = Np.dot_prod w_tan (mu self) /\
  exists grid,
    Np.linspace min_ret max_ret num = Return grid /\
    efficient_frontier self None short_allowed points =
    (vols <- solve_each (point_volatility self (kwarg false short_allowed)) grid ;;
     Return (grid, vols)) /\
    length grid = Z.to_nat num /\
    ((1 < num)%Z -> nth_error grid (Z.to_nat num - 1) = Some max_ret) /\
    (forall i, i < Z.to_nat num - 1 ->
       nth_error grid i = Some (evenly_spaced min_ret max_ret num i)) /\
    ((1 <= num)%Z ->
     PrimFloat.is_nan min_ret = false ->
     PrimFloat.is_finite (linspace_step min_ret max_ret num) = true ->
     exists y0 rest, grid = y0 :: rest /\ (y0 =? min_ret)%float = true).
Proof.
  intros Hmvp Htan Hp1 Hp2 Hnum num.
  split; [reflexivity|].
  destruct (portfolio_performance_return self _ _ _ Hp1) as [Hr1 _].
  destruct (portfolio_performance_return self _ _ _ Hp2) as [Hr2 _].
  split; [exact Hr1|]. split; [exact Hr2|].
  destruct (linspace_returns min_ret max_ret num Hnum) as [grid [Hgrid Hlen]].
  exists grid. split; [exact Hgrid|].
  split.
  { rewrite efficient_frontier_sweep. unfold frontier_grid, default_return_range.
    rewrite Hmvp. cbn [bind]. rewrite Hp1. cbn [bind].
    rewrite Htan. cbn [bind]. rewrite Hp2. cbn [bind fst].
    fold num. rewrite Hgrid. reflexivity. }
  split; [exact Hlen|].
  split; [intros Hgt; now apply linspace_last with (start := min_ret)|].
  split.
  - intros i Hi. apply linspace_interior; [lia | exact Hgrid | exact Hi].
  - intros Hge Hnan Hfin. now apply linspace_first with (stop := max_ret) (num := num).
Qed.

Lemma default_grid_is_evenly_spaced_witness :
  exists grid,
    Np.linspace 0.25%float 0.625%float 4 = Return grid /\
    length grid = 4 /\
    nth_error grid 3 = Some 0.625%float /\
    nth_error grid 1 = Some (evenly_spaced 0.25%float 0.625%float 4 1).
Proof.
  destruct (@default_grid_is_evenly_spaced Sample.vertex_search Sample.markowitz2
              None (Some 4%Z) [1; 0]%float [0.5; 0.5]%float
              0.25%float 0.5%float 0.625%float (PrimFloat.sqrt 0.3125%float)
              Logic.eq_refl Logic.eq_refl Logic.eq_refl Logic.eq_refl
              ltac:(simpl; lia))
    as [_ [_ [_ [grid [Hgrid [_ [Hlen [Hlast [Hstep _]]]]]]]]].
  exists grid. split; [exact Hgrid|]. split; [exact Hlen|].
  split; [apply Hlast; simpl; lia | apply Hstep; simpl; lia].
Defined.

End MarkowitzClaims.

(** ** Risk parity and maximum diversification *)

Module RiskParityProps.

Import RiskParity Pointwise PointwiseFacts.

Section Objective.

Variable self : RiskParityOptimizer.
Variable weights : vec.
Hypothesis Hrows : length (rows (Sigma self)) = length weights.
Hypothesis Hcols : length (columns (Sigma self)) = length weights.

Lemma rp_volatility_returns :
  returns (_portfolio_volatility self weights).
Proof.
  unfold _portfolio_volatility, Np.vecmat, Np.series_dot.
  rewrite Hrows, Nat.eqb_refl. simpl.
  rewrite length_map, length_seq, Hcols, Nat.eqb_refl. eexists; reflexivity.
Qed.

Lemma rp_volatility_value :
  _portfolio_volatility self weights =
  Return (PrimFloat.sqrt (radicand_left (Sigma self) weights)).
Proof.
  unfold _portfolio_volatility, Np.vecmat, Np.series_dot, radicand_left.
  rewrite Hrows, Nat.eqb_refl. simpl.
  rewrite length_map, length_seq, Hcols, Nat.eqb_refl. reflexivity.
Qed.

Lemma risk_contributions_pointwise (vol : float) :
  _portfolio_volatility self weights = Return vol ->
  _risk_contributions self weights =
  Return (map (risk_contribution (Sigma self) weights vol) (seq 0 (length weights))).
Proof.
  intros Hvol. unfold _risk_contributions, Np.matvec, Np.elementwise.
  rewrite Hvol. simpl.
  rewrite Hcols, Nat.eqb_refl. simpl.
  rewrite length_map, Hrows, Nat.eqb_refl. simpl. f_equal.
  rewrite zip_with_pointwise by now rewrite length_map.
  rewrite map_map. apply map_ext. intros i. unfold risk_contribution.
  change 0%float with (Np.dot_prod [] weights) at 2.
  now rewrite (map_nth (fun r => Np.dot_prod r weights)).
Qed.

Lemma objective_pointwise (vol : float) :
  _portfolio_volatility self weights = Return vol ->
  length (risk_budget self) = length weights ->
  _objective self weights =
  Return (Np.series_sum
            (squared_deviations (Sigma self) weights (risk_budget self) vol
               (length weights))).
Proof.
  intros Hvol Hb. unfold _objective.
  rewrite (risk_contributions_pointwise vol Hvol). simpl.
  unfold Np.elementwise. rewrite length_map, length_seq, Hb, Nat.eqb_refl. simpl.
  do 2 f_equal.
  rewrite zip_with_pointwise by now rewrite length_map, length_seq.
  rewrite length_map, length_seq, map_map. unfold squared_deviations.
  apply map_seq_ext. intros i Hi. cbv zeta.
  assert (nth i (map (risk_contribution (Sigma self) weights vol)
                     (seq 0 (length weights))) 0%float
          = risk_contribution (Sigma self) weights vol i) as ->; [|reflexivity].
  rewrite (nth_indep _ 0%float (risk_contribution (Sigma self) weights vol 0))
    by now rewrite length_map, length_seq.
  now rewrite (map_nth (risk_contribution (Sigma self) weights vol)), seq_nth.
Qed.

Lemma objective_sum (vol : float) :
  _portfolio_volatility self weights = Return vol ->
  length (risk_budget self) = length weights ->
  all_numbers (squared_deviations (Sigma self) weights (risk_budget self) vol
                 (length weights)) = true ->
  _objective self weights =
  Return (sum_of_squared_deviations (Sigma self) weights (risk_budget self) vol
            (length weights)).
Proof.
  intros Hvol Hb Hnum. rewrite (objective_pointwise vol Hvol Hb). f_equal.
  rewrite series_sum_numbers by exact Hnum.
  unfold Np.sum, squared_deviations, sum_of_squared_deviations.
  apply sum_map.
Qed.

End Objective.

End RiskParityProps.

Module RiskParityClaims.

Import RiskParity Pointwise RiskParityProps.

(** C7: at weights [w] the risk-parity objective is the sum over the
    assets of [(riskContribution_i - budget_i)^2], with
    [riskContribution_i = w_i * (Sigma w)_i / portfolioVolatility(w, Sigma)]
    and [portfolioVolatility(w, Sigma) = sqrt(w^T Sigma w)] (every term
    being a number); a constructor given no risk budget takes the uniform
    vector [1/n]. *)
Theorem objective_is_sum_of_squared_deviations
    (cov_matrix : DataFrame) (budget : option vec) (w : vec) :
  let self := init cov_matrix budget in
  let vol := PrimFloat.sqrt (radicand_left cov_matrix w) in
  length (rows cov_matrix) = length w ->
  length (columns cov_matrix) = length w ->
  length (risk_budget self) = length w ->
  risk_budget (init cov_matrix None) =
  repeat (1 / Np.float_of_nat (length (columns cov_matrix)))%float
         (length (columns cov_matrix)) /\
  _portfolio_volatility self w = Return vol /\
  _risk_contributions self w =
  Return (map (risk_contribution cov_matrix w vol) (seq 0 (length w))) /\
  (all_numbers (squared_deviations cov_matrix w (risk_budget self) vol (length w)) = true ->
   _objective self w =
   Return (sum_of_squared_deviations cov_matrix w (risk_budget self) vol (length w))).
Proof.
  intros self vol Hrows Hcols Hb.
  split; [apply ones_over_repeat|].
  pose proof (rp_volatility_value self w Hrows Hcols) as Hvol.
  split; [exact Hvol|].
  split; [exact (risk_contributions_pointwise self w Hrows Hcols vol Hvol)|].
  intros Hnum. exact (objective_sum self w Hrows Hcols vol Hvol Hb Hnum).
Qed.

Lemma objective_is_sum_of_squared_deviations_witness :
  _portfolio_volatility (init Sample.two_assets None) [0.5; 0.5]%float =
  Return (PrimFloat.sqrt 0.3125%float) /\
  _objective (init Sample.two_assets None) [0.5; 0.5]%float =
  Return (sum_of_squared_deviations Sample.two_assets [0.5; 0.5]%float
            [0.5; 0.5]%float (PrimFloat.sqrt 0.3125%float) 2).
Proof.
  destruct (objective_is_sum_of_squared_deviations Sample.two_assets None
              [0.5; 0.5]%float Logic.eq_refl Logic.eq_refl Logic.eq_refl)
    as [_ [Hvol [_ Hobj]]].
  split; [exact Hvol|].
  apply Hobj. vm_compute. reflexivity.
Defined.

(** C10: the constructor takes any risk budget as it is, negative entries
    and sums other than one included, and never fails; the objective of a
    budget [b] of length [n] is the sum of [(riskContribution_i - b_i)^2]
    with that very [b]. *)
Theorem budget_is_used_as_given (cov_matrix : DataFrame) (b w : vec) :
  let self := init cov_matrix (Some b) in
  length (rows cov_matrix) = length w ->
  length (columns cov_matrix) = length w ->
  length b = length w ->
  self = mkRiskParity cov_matrix (columns cov_matrix) (length (columns cov_matrix)) b /\
  exists vol,
    _portfolio_volatility self w = Return vol /\
    _objective self w =
    Return (Np.series_sum (squared_deviations cov_matrix w b vol (length w))) /\
    (all_numbers (squared_deviations cov_matrix w b vol (length w)) = true ->
     _objective self w =
     Return (sum_of_squared_deviations cov_matrix w b vol (length w))).
Proof.
  intros self Hrows Hcols Hb.
  split; [reflexivity|].
  destruct (rp_volatility_returns self w Hrows Hcols) as [vol Hvol].
  exists vol. split; [exact Hvol|]. split.
  - exact (objective_pointwise self w Hrows Hcols vol Hvol Hb).
  - intros Hnum. exact (objective_sum self w Hrows Hcols vol Hvol Hb Hnum).
Qed.

Lemma budget_is_used_as_given_witness :
  risk_budget (init Sample.two_assets (Some [(-1)%float; 3%float])) =
  [(-1)%float; 3%float] /\
  exists vol,
    _objective (init Sample.two_assets (Some [(-1)%float; 3%float])) [0.5; 0.5]%float =
    Return (sum_of_squared_deviations Sample.two_assets [0.5; 0.5]%float
              [(-1)%float; 3%float] vol 2).
Proof.
  destruct (budget_is_used_as_given Sample.two_assets [(-1)%float; 3%float]
              [0.5; 0.5]%float Logic.eq_refl Logic.eq_refl Logic.eq_refl)
    as [Hself [vol [Hvol [_ Hobj]]]].
  split; [reflexivity|].
  exists vol. apply Hobj.
  vm_compute in Hvol. injection Hvol as <-.
  vm_compute. reflexivity.
Defined.

End RiskParityClaims.

Module MaxDiversificationProps.

Import MaxDiversification Pointwise PointwiseFacts.

Lemma md_volatility_returns (self : MaxDiversificationOptimizer) (w : vec) :
  length (rows (Sigma self)) = length w ->
  length (columns (Sigma self)) = length w ->
  _portfolio_volatility self w = Return (PrimFloat.sqrt (radicand_left (Sigma self) w)).
Proof.
  intros Hrows Hcols. unfold _portfolio_volatility, Np.vecmat, Np.series_dot, radicand_left.
  rewrite Hrows, Nat.eqb_refl. simpl.
  rewrite length_map, length_seq, Hcols, Nat.eqb_refl. reflexivity.
Qed.

Lemma sigma_individual_pointwise (cov : DataFrame) :
  square cov (length (columns cov)) ->
  sigma_individual (init cov) =
  map (standalone_volatility cov) (seq 0 (length (columns cov))).
Proof.
  intros [Hrows [_ Hwf]]. unfold init, sigma_individual, Np.diag.
  rewrite diag_from_pointwise.
  - rewrite Hrows, map_map. reflexivity.
  - eapply Forall_impl; [|exact Hwf]. simpl. intros r Hr. lia.
Qed.

End MaxDiversificationProps.

Module MaxDiversificationClaims.

Import MaxDiversification Pointwise MaxDiversificationProps.

(** C8: the constructor stores the standalone volatilities
    [sigma_i = sqrt(Sigma_ii)] read off the diagonal of the covariance
    matrix, and the objective at weights [w] is the negated
    diversification ratio [-((w . sigma) / portfolioVolatility(w, Sigma))],
    with [portfolioVolatility(w, Sigma) = sqrt(w^T Sigma w)]. *)
Theorem neg_objective_is_negated_ratio (cov_matrix : DataFrame) (w : vec) :
  let self := init cov_matrix in
  let sigma := map (standalone_volatility cov_matrix)
                   (seq 0 (length (columns cov_matrix))) in
  let vol := PrimFloat.sqrt (radicand_left cov_matrix w) in
  square cov_matrix (length (columns cov_matrix)) ->
  length w = length (columns cov_matrix) ->
  sigma_individual self = sigma /\
  _portfolio_volatility self w = Return vol /\
  _neg_objective self w = Return (- (Np.dot_prod w sigma / vol))%float.
Proof.
  intros self sigma vol Hsq Hw. subst self sigma vol.
  pose proof (sigma_individual_pointwise cov_matrix Hsq) as Hsig.
  split; [exact Hsig|].
  destruct Hsq as [Hrows [_ _]].
  assert (_portfolio_volatility (init cov_matrix) w =
          Return (PrimFloat.sqrt (radicand_left cov_matrix w))) as Hvol
    by (apply md_volatility_returns; simpl; congruence).
  split; [exact Hvol|].
  unfold _neg_objective, _diversification_ratio, Np.dot.
  rewrite Hsig, length_map, length_seq, Hw, Nat.eqb_refl. cbn [bind].
  rewrite Hvol. reflexivity.
Qed.

Lemma neg_objective_is_negated_ratio_witness :
  sigma_individual (init Sample.two_assets) = [0.5; 1]%float /\
  _portfolio_volatility (init Sample.two_assets) [0.5; 0.5]%float =
  Return (PrimFloat.sqrt 0.3125%float) /\
  _neg_objective (init Sample.two_assets) [0.5; 0.5]%float =
  Return (- (0.75 / PrimFloat.sqrt 0.3125%float))%float.
Proof.
  destruct (neg_objective_is_negated_ratio Sample.two_assets [0.5; 0.5]%float)
    as [Hsig [Hvol Hobj]].
  - repeat split. repeat constructor.
  - reflexivity.
  - split; [rewrite Hsig; reflexivity|].
    split; [exact Hvol | exact Hobj].
Defined.

End MaxDiversificationClaims.

(** ** What the optimizers signal *)

Module ErrorClaims.

Import Pointwise MaxDiversificationProps.

(** C4: given a solve that comes back with a weight vector of the size
    of the problem, [optimize] of the risk-parity and of the
    max-diversification optimizer returns the weights labelled by the
    columns of the covariance matrix, in their order, exactly when the
    solve succeeded; otherwise it raises a [ValueError] whose text is
    "Optimization failed: " followed by the solver's message. *)
Theorem optimize_raises_iff_not_converged
    {solver : Scipy.Solver} (cov_matrix : DataFrame) (risk_budget : option vec)
    (short_allowed : option bool) (r_rp r_md : Scipy.OptimizeResult) :
  let rp := RiskParity.init cov_matrix risk_budget in
  let md := MaxDiversification.init cov_matrix in
  let n := length (columns cov_matrix) in
  Scipy.minimize (RiskParity._objective rp) (Np.ones_over n) "SLSQP"
    (box_bounds (kwarg false short_allowed) n) [budget_constraint] = Return r_rp ->
  Scipy.minimize (MaxDiversification._neg_objective md) (Np.ones_over n) "SLSQP"
    (box_bounds (kwarg false short_allowed) n) [budget_constraint] = Return r_md ->
  length (Scipy.x r_rp) = n ->
  length (Scipy.x r_md) = n ->
  (Scipy.success r_rp = true ->
   RiskParity.optimize rp short_allowed =
   Return (mkSeries (columns cov_matrix) (Scipy.x r_rp))) /\
  (Scipy.success r_rp = false ->
   RiskParity.optimize rp short_allowed =
   Raise (ValueError ("Optimization failed: " ++ Scipy.message r_rp))) /\
  (Scipy.success r_md = true ->
   MaxDiversification.optimize md short_allowed =
   Return (mkSeries (columns cov_matrix) (Scipy.x r_md))) /\
  (Scipy.success r_md = false ->
   MaxDiversification.optimize md short_allowed =
   Raise (ValueError ("Optimization failed: " ++ Scipy.message r_md))) /\
  (returns (RiskParity.optimize rp short_allowed) <-> Scipy.success r_rp = true) /\
  (returns (MaxDiversification.optimize md short_allowed) <-> Scipy.success r_md = true).
Proof.
  intros rp md n Hrp Hmd Lrp Lmd.
  assert (RiskParity.optimize rp short_allowed =
          if Scipy.success r_rp
          then Return (mkSeries (columns cov_matrix) (Scipy.x r_rp))
          else Raise (ValueError ("Optimization failed: " ++ Scipy.message r_rp))) as Erp.
  { unfold RiskParity.optimize. cbv zeta. subst rp n. cbn [RiskParity.init RiskParity.n
      RiskParity.assets] in *. rewrite Hrp. cbn [bind].
    unfold Np.mk_series. now rewrite Lrp, Nat.eqb_refl. }
  assert (MaxDiversification.optimize md short_allowed =
          if Scipy.success r_md
          then Return (mkSeries (columns cov_matrix) (Scipy.x r_md))
          else Raise (ValueError ("Optimization failed: " ++ Scipy.message r_md))) as Emd.
  { unfold MaxDiversification.optimize. cbv zeta. subst md n.
    cbn [MaxDiversification.init MaxDiversification.n MaxDiversification.assets] in *.
    rewrite Hmd. cbn [bind].
    unfold Np.mk_series. now rewrite Lmd, Nat.eqb_refl. }
  rewrite Erp, Emd.
  repeat split; try (intros ->; reflexivity).
  - intros [s Hs]. destruct (Scipy.success r_rp); [reflexivity | discriminate Hs].
  - intros ->. eexists; reflexivity.
  - intros [s Hs]. destruct (Scipy.success r_md); [reflexivity | discriminate Hs].
  - intros ->. eexists; reflexivity.
Qed.

Lemma optimize_raises_iff_not_converged_witness :
  @RiskParity.optimize Sample.vertex_search (RiskParity.init Sample.two_assets None) None =
  Return (mkSeries ["A"; "B"] [0.5; 0.5]%float) /\
  @MaxDiversification.optimize Sample.stalled (MaxDiversification.init Sample.two_assets)
    None =
  Raise (ValueError "Optimization failed: Iteration limit reached").
Proof.
  split.
  - apply (@optimize_raises_iff_not_converged Sample.vertex_search Sample.two_assets
             None None _ _ Logic.eq_refl Logic.eq_refl Logic.eq_refl Logic.eq_refl).
    reflexivity.
  - apply (@optimize_raises_iff_not_converged Sample.stalled Sample.two_assets
             None None _ _ Logic.eq_refl Logic.eq_refl Logic.eq_refl Logic.eq_refl).
    reflexivity.
Defined.

(** C5, as stated, fails: over a covariance matrix that is not positive
    semi-definite the radicand [w^T Sigma w] is negative, and both
    volatility computations return NaN as an ordinary value. *)
Lemma negative_radicand_returns_nan :
  (radicand Sample.negative_variance [1%float] <? 0)%float = true /\
  Markowitz._portfolio_performance
    (Markowitz.init [1%float] Sample.negative_variance None) (Some [1%float])
  = Return (1%float, Np.nan) /\
  MaxDiversification._portfolio_volatility
    (MaxDiversification.init Sample.negative_variance) [1%float]
  = Return Np.nan.
Proof.
  repeat split.
Qed.

(** C5, amended: for weights and a covariance matrix of matching shape
    the volatility is returned as [sqrt(w^T Sigma w)] and no error is
    raised; when the radicand is negative the value returned is NaN. *)
Theorem volatility_of_negative_radicand_is_nan
    (mk : Markowitz.MarkowitzOptimizer)
    (md : MaxDiversification.MaxDiversificationOptimizer) (w : vec) :
  length (Markowitz.mu mk) = length w ->
  length (rows (Markowitz.Sigma mk)) = length w ->
  length (columns (Markowitz.Sigma mk)) = length w ->
  length (rows (MaxDiversification.Sigma md)) = length w ->
  length (columns (MaxDiversification.Sigma md)) = length w ->
  let q_mk := radicand (Markowitz.Sigma mk) w in
  let q_md := radicand_left (MaxDiversification.Sigma md) w in
  Markowitz._portfolio_performance mk (Some w) =
  Return (Np.dot_prod w (Markowitz.mu mk), PrimFloat.sqrt q_mk) /\
  MaxDiversification._portfolio_volatility md w = Return (PrimFloat.sqrt q_md) /\
  ((q_mk <? 0)%float = true -> PrimFloat.sqrt q_mk = Np.nan) /\
  ((q_md <? 0)%float = true -> PrimFloat.sqrt q_md = Np.nan).
Proof.
  intros Hmu Hrows Hcols Hrows' Hcols' q_mk q_md.
  split; [|split; [|split]].
  - unfold Markowitz._portfolio_performance, Np.dot.
    rewrite Hmu, Nat.eqb_refl. cbn [bind].
    rewrite MarkowitzProps.portfolio_volatility_returns by assumption.
    reflexivity.
  - now apply md_volatility_returns.
  - apply FloatFacts.sqrt_negative.
  - apply FloatFacts.sqrt_negative.
Qed.

Lemma volatility_of_negative_radicand_is_nan_witness :
  PrimFloat.sqrt (radicand Sample.negative_variance [1%float]) = Np.nan /\
  PrimFloat.sqrt (radicand_left Sample.negative_variance [1%float]) = Np.nan.
Proof.
  destruct (volatility_of_negative_radicand_is_nan
              (Markowitz.init [1%float] Sample.negative_variance None)
              (MaxDiversification.init Sample.negative_variance) [1%float]
              Logic.eq_refl Logic.eq_refl Logic.eq_refl Logic.eq_refl Logic.eq_refl)
    as [_ [_ [Hmk Hmd]]].
  split; [apply Hmk | apply Hmd]; reflexivity.
Defined.

(** C6, as stated, fails: over a covariance matrix with no risk the
    volatility is zero, and both ratios are computed all the same; the
    risk contributions come out as NaN and the negated Sharpe ratio as an
    infinity. *)
Lemma zero_volatility_is_divided_by :
  RiskParity._portfolio_volatility
    (RiskParity.init Sample.zero_variance None) [0.5; 0.5]%float
  = Return 0%float /\
  RiskParity._risk_contributions
    (RiskParity.init Sample.zero_variance None) [0.5; 0.5]%float
  = Return [Np.nan; Np.nan] /\
  Markowitz._portfolio_performance
    (Markowitz.init Sample.two_returns Sample.zero_variance None)
    (Some [0.5; 0.5]%float)
  = Return (0.625%float, 0%float) /\
  Markowitz.neg_sharpe_ratio
    (Markowitz.init Sample.two_returns Sample.zero_variance None) [0.5; 0.5]%float
  = Return neg_infinity.
Proof.
  repeat split.
Qed.

(** C6, amended: for weights and a covariance matrix of matching shape,
    the risk contributions [w_i * (Sigma w)_i / volatility] and the
    negated Sharpe ratio [-(return - rf) / volatility] are computed by a
    plain division with no test of the volatility; when the volatility is
    zero every one of them is a NaN or an infinity. *)
Theorem ratios_divide_without_check
    (rp : RiskParity.RiskParityOptimizer) (mk : Markowitz.MarkowitzOptimizer) (w : vec) :
  length (rows (RiskParity.Sigma rp)) = length w ->
  length (columns (RiskParity.Sigma rp)) = length w ->
  length (Markowitz.mu mk) = length w ->
  length (rows (Markowitz.Sigma mk)) = length w ->
  length (columns (Markowitz.Sigma mk)) = length w ->
  exists vol_rp ret vol_mk,
    RiskParity._portfolio_volatility rp w = Return vol_rp /\
    RiskParity._risk_contributions rp w =
    Return (map (risk_contribution (RiskParity.Sigma rp) w vol_rp) (seq 0 (length w))) /\
    Markowitz._portfolio_performance mk (Some w) = Return (ret, vol_mk) /\
    Markowitz.neg_sharpe_ratio mk w = Return (- (ret - Markowitz.rf mk) / vol_mk)%float /\
    ((vol_rp =? 0)%float = true ->
     forall i,
       PrimFloat.is_finite (risk_contribution (RiskParity.Sigma rp) w vol_rp i) = false) /\
    ((vol_mk =? 0)%float = true ->
     PrimFloat.is_finite (- (ret - Markowitz.rf mk) / vol_mk)%float = false).
Proof.
  intros Hrows Hcols Hmu Hrows' Hcols'.
  destruct (RiskParityProps.rp_volatility_returns rp w Hrows Hcols) as [vol_rp Hvol].
  exists vol_rp, (Np.dot_prod w (Markowitz.mu mk)),
    (PrimFloat.sqrt (radicand (Markowitz.Sigma mk) w)).
  assert (Markowitz._portfolio_performance mk (Some w) =
          Return (Np.dot_prod w (Markowitz.mu mk),
                  PrimFloat.sqrt (radicand (Markowitz.Sigma mk) w))) as Hperf.
  { unfold Markowitz._portfolio_performance, Np.dot.
    rewrite Hmu, Nat.eqb_refl. cbn [bind].
    rewrite MarkowitzProps.portfolio_volatility_returns by assumption.
    reflexivity. }
  split; [exact Hvol|].
  split; [now apply RiskParityProps.risk_contributions_pointwise|].
  split; [exact Hperf|].
  split; [unfold Markowitz.neg_sharpe_ratio; rewrite Hperf; reflexivity|].
  split.
  - intros Hz i. unfold risk_contribution. now apply FloatFacts.div_by_zero.
  - intros Hz. now apply FloatFacts.div_by_zero.
Qed.

Lemma ratios_divide_without_check_witness :
  exists vol_rp,
    RiskParity._portfolio_volatility
      (RiskParity.init Sample.zero_variance None) [0.5; 0.5]%float = Return vol_rp /\
    RiskParity._risk_contributions
      (RiskParity.init Sample.zero_variance None) [0.5; 0.5]%float =
    Return (map (risk_contribution Sample.zero_variance [0.5; 0.5]%float vol_rp) (seq 0 2)) /\
    PrimFloat.is_finite
      (risk_contribution Sample.zero_variance [0.5; 0.5]%float vol_rp 1) = false.
Proof.
  destruct (ratios_divide_without_check
              (RiskParity.init Sample.zero_variance None)
              (Markowitz.init Sample.two_returns Sample.zero_variance None)
              [0.5; 0.5]%float
              Logic.eq_refl Logic.eq_refl Logic.eq_refl Logic.eq_refl Logic.eq_refl)
    as [vol_rp [_ [_ [Hvol [Hrc [_ [_ [Hzero _]]]]]]]].
  exists vol_rp. split; [exact Hvol|]. split; [exact Hrc|].
  apply Hzero.
  vm_compute in Hvol. injection Hvol as <-. reflexivity.
Defined.

End ErrorClaims.

(** ** More on the frontier sweep *)

Module FrontierInputs.

(** A solver that evaluates the objective at the initial guess first, as
    SLSQP does, so that an exception of the objective escapes the call;
    it then reports that it did not converge. *)
Definition evaluating : Scipy.Solver :=
  {| Scipy.minimize f x0 _ _ _ :=
       v <- f x0 ;;
       Return (Scipy.mkResult x0 false "Iteration limit reached") |}.

(** A covariance frame with one row for two columns. *)
Definition one_row : DataFrame :=
  mkFrame ["A"; "B"] [[0.25%float; 0%float]].

Definition lopsided : Markowitz.MarkowitzOptimizer :=
  Markowitz.init Sample.two_returns one_row None.

End FrontierInputs.

Module FrontierExtras.

Import Markowitz Frontier MarkowitzProps.

Lemma solve_each_app (f : float -> outcome float) (g1 g2 v1 v2 : vec) :
  solve_each f g1 = Return v1 ->
  solve_each f g2 = Return v2 ->
  solve_each f (g1 ++ g2) = Return (v1 ++ v2).
Proof.
  revert v1. induction g1 as [|t g1 IH]; intros v1 H1 H2; simpl in *.
  - injection H1 as <-. exact H2.
  - destruct (f t) as [v|e]; simpl in *; [|discriminate H1].
    destruct (solve_each f g1) as [vs|e]; simpl in *; [|discriminate H1].
    injection H1 as <-. rewrite (IH vs Logic.eq_refl H2). reflexivity.
Qed.

Lemma solve_each_raises (f : float -> outcome float) (grid : vec) (t : float) :
  In t grid -> raises (f t) -> raises (solve_each f grid).
Proof.
  induction grid as [|t0 rest IH]; intros Hin Hr; [destruct Hin|].
  simpl. destruct (f t0) as [v|e] eqn:E; simpl; [|eexists; reflexivity].
  destruct Hin as [->|Hin].
  - destruct Hr as [e He]. congruence.
  - destruct (IH Hin Hr) as [e He]. rewrite He. eexists; reflexivity.
Qed.

Lemma efficient_frontier_given_grid {solver : Scipy.Solver}
    (self : MarkowitzOptimizer) (grid vols : vec)
    (short_allowed : option bool) (points : option Z) :
  efficient_frontier self (Some grid) short_allowed points = Return (grid, vols) <->
  solve_each (point_volatility self (kwarg false short_allowed)) grid = Return vols.
Proof.
  rewrite efficient_frontier_sweep. simpl.
  destruct (solve_each _ grid) as [vs|e]; simpl; split; intros H;
    try discriminate H; congruence.
Qed.

(** X1: the frontier of two grids laid end to end is the two frontiers
    laid end to end. *)
Theorem frontier_of_joined_grids {solver : Scipy.Solver}
    (self : MarkowitzOptimizer) (g1 g2 v1 v2 : vec)
    (short_allowed : option bool) (points : option Z) :
  efficient_frontier self (Some g1) short_allowed points = Return (g1, v1) ->
  efficient_frontier self (Some g2) short_allowed points = Return (g2, v2) ->
  efficient_frontier self (Some (g1 ++ g2)) short_allowed points =
  Return (g1 ++ g2, v1 ++ v2).
Proof.
  rewrite !efficient_frontier_given_grid. apply solve_each_app.
Qed.

Lemma frontier_of_joined_grids_witness :
  @efficient_frontier Sample.vertex_search Sample.markowitz2
    (Some [1; 0.5; 0.25]%float) None None =
  Return ([1; 0.5; 0.25]%float, [1%float; Np.nan; 0.5%float]).
Proof.
  apply (@frontier_of_joined_grids Sample.vertex_search Sample.markowitz2
           [1; 0.5]%float [0.25%float] [1%float; Np.nan] [0.5%float] None None).
  - vm_compute. reflexivity.
  - vm_compute. reflexivity.
Defined.

(** X2: an exception raised by the solve of any grid value escapes
    [efficient_frontier]; only a solve that returns unconverged is turned
    into a missing entry. *)
Theorem solver_exception_aborts_sweep {solver : Scipy.Solver}
    (self : MarkowitzOptimizer) (grid : vec)
    (short_allowed : option bool) (points : option Z) (t : float) :
  In t grid ->
  raises (point_solve self (kwarg false short_allowed) t) ->
  raises (efficient_frontier self (Some grid) short_allowed points).
Proof.
  intros Hin [e He]. rewrite efficient_frontier_sweep. simpl.
  destruct (solve_each_raises
              (point_volatility self (kwarg false short_allowed)) grid t Hin)
    as [e' He'].
  - unfold point_volatility. rewrite He. eexists; reflexivity.
  - rewrite He'. eexists; reflexivity.
Qed.

Lemma solver_exception_aborts_sweep_witness :
  raises (@efficient_frontier FrontierInputs.evaluating FrontierInputs.lopsided
            (Some [0.25; 0.5]%float) None None).
Proof.
  apply (@solver_exception_aborts_sweep FrontierInputs.evaluating
           FrontierInputs.lopsided [0.25; 0.5]%float None None 0.5%float).
  - right. left. reflexivity.
  - eexists. vm_compute. reflexivity.
Defined.

End FrontierExtras.

(** ** [core/optimizer_runner.py] *)

Module OptimizerRunner.

(** [series * k] and [frame * k] for an integer [k]. *)
Definition scale_vec (v : vec) (k : Z) : vec :=
  map (fun a => (a * Np.float_of_Z k)%float) v.

Definition scale_frame (df : DataFrame) (k : Z) : DataFrame :=
  mkFrame (columns df) (map (fun r => scale_vec r k) (rows df)).

Section WithSolver.

Context {solver : Scipy.Solver}.

(** pandas' [DataFrame.mean] and [DataFrame.cov], taken as given. *)
Variable frame_mean : DataFrame -> vec.
Variable frame_cov : DataFrame -> DataFrame.

Definition run_optimizations (pivoted : DataFrame) (trading_days : Z)
    (risk_free_rate : float)
    : outcome (option vec * option vec * vec * DataFrame * vec * vec) :=
  let expected_returns := scale_vec (frame_mean pivoted) trading_days in
  let cov_matrix := scale_frame (frame_cov pivoted) trading_days in
  let optimizer := Markowitz.init expected_returns cov_matrix (Some risk_free_rate) in
  mvp <- Markowitz.min_variance_portfolio optimizer None ;;
  tan <- Markowitz.tangency_portfolio optimizer None ;;
  frontier <- Markowitz.efficient_frontier optimizer None None None ;;
  let '(ret_range, vol_range) := frontier in
  Return (mvp, tan, expected_returns, cov_matrix, ret_range, vol_range).

End WithSolver.

Section Runners.

Context {solver : Scipy.Solver}.

Definition run_risk_parity_optimization (cov_matrix : DataFrame) : outcome Series :=
  let rp_optimizer := RiskParity.init cov_matrix None in
  RiskParity.optimize rp_optimizer None.

Definition run_max_div_optimization (cov_matrix : DataFrame) : outcome Series :=
  let optimizer := MaxDiversification.init cov_matrix in
  MaxDiversification.optimize optimizer None.

End Runners.

End OptimizerRunner.

Module GridExtras.

Import Markowitz Frontier MarkowitzProps.

Lemma sweep_returns_grid {solver : Scipy.Solver} (self : MarkowitzOptimizer)
    (return_range : option vec) (short_allowed : option bool) (points : option Z)
    (grid vols : vec) :
  efficient_frontier self return_range short_allowed points = Return (grid, vols) ->
  frontier_grid self return_range points = Return grid /\
  solve_each (point_volatility self (kwarg false short_allowed)) grid = Return vols.
Proof.
  rewrite efficient_frontier_sweep.
  destruct (frontier_grid self return_range points) as [g|e]; simpl; [|discriminate].
  destruct (solve_each _ g) as [vs|e] eqn:E; simpl; [|discriminate].
  intros H. injection H as <- <-. split; [reflexivity | exact E].
Qed.

Lemma solve_each_length (f : float -> outcome float) (grid vols : vec) :
  solve_each f grid = Return vols -> length vols = length grid.
Proof.
  revert vols. induction grid as [|t rest IH]; intros vols H; simpl in H.
  - injection H as <-. reflexivity.
  - destruct (f t) as [v|e]; simpl in H; [|discriminate H].
    destruct (solve_each f rest) as [vs|e]; simpl in H; [|discriminate H].
    injection H as <-. simpl. f_equal. now apply IH.
Qed.

(** What a derived grid presupposes: both sub-solves gave weights. *)
Lemma default_return_range_inv {solver : Scipy.Solver} (self : MarkowitzOptimizer)
    (points : Z) (grid : vec) :
  default_return_range self points = Return grid ->
  exists w_mvp w_tan p1 p2,
    min_variance_portfolio self None = Return (Some w_mvp) /\
    tangency_portfolio self None = Return (Some w_tan) /\
    _portfolio_performance self (Some w_mvp) = Return p1 /\
    _portfolio_performance self (Some w_tan) = Return p2 /\
    Np.linspace (fst p1) (fst p2) points = Return grid.
Proof.
  assert (exists e, _portfolio_performance self None = Raise e) as [e0 Hnone].
  { unfold _portfolio_performance. destruct (mu self); eexists; reflexivity. }
  unfold default_return_range.
  destruct (min_variance_portfolio self None) as [[w1|]|e] eqn:Em; cbn [bind];
    try discriminate.
  - destruct (_portfolio_performance self (Some w1)) as [p1|e] eqn:E1; cbn [bind];
      [|discriminate].
    destruct (tangency_portfolio self None) as [[w2|]|e] eqn:Et; cbn [bind];
      try discriminate.
    + destruct (_portfolio_performance self (Some w2)) as [p2|e] eqn:E2; cbn [bind];
        [|discriminate].
      intros H. exists w1, w2, p1, p2. repeat split; assumption.
    + rewrite Hnone. discriminate.
  - rewrite Hnone. discriminate.
Qed.



(** X4: the point count at its edges, when the grid is derived and both
    sub-solves gave weights: a negative count makes [efficient_frontier]
    raise a [ValueError], a count of zero gives the empty frontier. *)
Theorem degenerate_point_counts {solver : Scipy.Solver}
    (self : MarkowitzOptimizer) (short_allowed : option bool)
    (w_mvp w_tan : vec) (p1 p2 : float * float) (points : Z) :
  min_variance_portfolio self None = Return (Some w_mvp) ->
  tangency_portfolio self None = Return (Some w_tan) ->
  _portfolio_performance self (Some w_mvp) = Return p1 ->
  _portfolio_performance self (Some w_tan) = Return p2 ->
  ((points < 0)%Z ->
   exists msg,
     efficient_frontier self None short_allowed (Some points) =
     Raise (ValueError msg)) /\
  efficient_frontier self None short_allowed (Some 0%Z) = Return ([], []).
Proof.
  intros Hm Ht Hp1 Hp2.
  assert (forall p, frontier_grid self None (Some p) = Np.linspace (fst p1) (fst p2) p)
    as Hgrid.
  { intros p. unfold frontier_grid, default_return_range.
    rewrite Hm. cbn [bind]. rewrite Hp1. cbn [bind].
    rewrite Ht. cbn [bind]. rewrite Hp2. reflexivity. }
  split.
  - intros Hneg. rewrite efficient_frontier_sweep, Hgrid. unfold Np.linspace.
    destruct (Z.ltb_spec points 0); [|lia]. eexists; reflexivity.
  - rewrite efficient_frontier_sweep, Hgrid. reflexivity.
Qed.

Lemma degenerate_point_counts_witness :
  (exists msg,
     @efficient_frontier Sample.vertex_search Sample.markowitz2
       None None (Some (-3)%Z) = Raise (ValueError msg)) /\
  @efficient_frontier Sample.vertex_search Sample.markowitz2
    None None (Some 0%Z) = Return ([], []).
Proof.
  destruct (@degenerate_point_counts Sample.vertex_search Sample.markowitz2 None
              _ _ _ _ (-3)%Z Logic.eq_refl Logic.eq_refl Logic.eq_refl Logic.eq_refl)
    as [Hneg Hzero].
  split; [apply Hneg; reflexivity | exact Hzero].
Defined.

End GridExtras.

Module RunnerExtras.

Import OptimizerRunner MarkowitzProps GridExtras.

(** X5: when [run_optimizations] returns, both weight vectors it hands
    back are arrays, never [None]: a sub-solve that did not converge makes
    the frontier call raise.  The frontier it returns has 50 target
    returns and 50 volatilities. *)
Theorem run_optimizations_returns_weights {solver : Scipy.Solver}
    (frame_mean : DataFrame -> vec) (frame_cov : DataFrame -> DataFrame)
    (pivoted : DataFrame) (trading_days : Z) (risk_free_rate : float)
    (mvp tan : option vec) (expected_returns : vec) (cov_matrix : DataFrame)
    (ret_range vol_range : vec) :
  run_optimizations frame_mean frame_cov pivoted trading_days risk_free_rate =
  Return (mvp, tan, expected_returns, cov_matrix, ret_range, vol_range) ->
  (exists w_mvp w_tan, mvp = Some w_mvp /\ tan = Some w_tan) /\
  length ret_range = 50 /\
  length vol_range = 50.
Proof.
  unfold run_optimizations. cbv zeta.
  set (optimizer := Markowitz.init _ _ _).
  destruct (Markowitz.min_variance_portfolio optimizer None) as [m|e] eqn:Em;
    cbn [bind]; [|discriminate].
  destruct (Markowitz.tangency_portfolio optimizer None) as [t|e] eqn:Et;
    cbn [bind]; [|discriminate].
  destruct (Markowitz.efficient_frontier optimizer None None None) as [[g v]|e] eqn:Ef;
    cbn [bind]; [|discriminate].
  intros H. injection H as <- <- _ _ <- <-.
  destruct (sweep_returns_grid optimizer None None None g v Ef) as [Hg Hv].
  apply default_return_range_inv in Hg.
  destruct Hg as (w1 & w2 & p1 & p2 & Hm & Ht & _ & _ & Hlin).
  rewrite Em in Hm. rewrite Et in Ht.
  injection Hm as ->. injection Ht as ->.
  split; [exists w1, w2; split; reflexivity|].
  assert (length g = 50) as Hlen.
  { destruct (linspace_returns (fst p1) (fst p2) 50 ltac:(lia)) as [g' [Hg' Hl]].
    simpl in Hlin. rewrite Hlin in Hg'. injection Hg' as <-. exact Hl. }
  split; [exact Hlen|].
  rewrite (solve_each_length _ _ _ Hv). exact Hlen.
Qed.

Lemma run_optimizations_returns_weights_witness :
  exists mvp tan mu cov rets vols,
    @run_optimizations Sample.vertex_search
      (fun _ => Sample.two_returns) (fun _ => Sample.two_assets)
      Sample.two_assets 1 0%float
    = Return (mvp, tan, mu, cov, rets, vols) /\
    (exists w_mvp w_tan, mvp = Some w_mvp /\ tan = Some w_tan) /\
    length rets = 50 /\
    length vols = 50.
Proof.
  do 6 eexists.
  split; [vm_compute; reflexivity|].
  eapply (@run_optimizations_returns_weights Sample.vertex_search
            (fun _ => Sample.two_returns) (fun _ => Sample.two_assets)
            Sample.two_assets 1 0%float).
  vm_compute. reflexivity.
Defined.

(** X6: whenever the risk-parity or the max-diversification runner
    returns, the weights are labelled by the columns of the covariance
    matrix, one weight per column. *)
Theorem runner_weights_are_labelled {solver : Scipy.Solver}
    (cov_matrix : DataFrame) (weights : Series) :
  run_risk_parity_optimization cov_matrix = Return weights \/
  run_max_div_optimization cov_matrix = Return weights ->
  s_index weights = columns cov_matrix /\
  length (s_values weights) = length (columns cov_matrix).
Proof.
  assert (forall values index s,
            Np.mk_series values index = Return s ->
            s_index s = index /\ length (s_values s) = length index) as Hmk.
  { intros values index s. unfold Np.mk_series.
    destruct (Nat.eqb_spec (length values) (length index)) as [Hl|_]; [|discriminate].
    intros H. injection H as <-. split; [reflexivity | exact Hl]. }
  intros [H|H].
  - unfold run_risk_parity_optimization, RiskParity.optimize in H. cbv zeta in H.
    destruct (Scipy.minimize _ _ _ _ _) as [r|e]; cbn [bind] in H; [|discriminate H].
    destruct (Scipy.success r); [|discriminate H].
    apply Hmk in H. exact H.
  - unfold run_max_div_optimization, MaxDiversification.optimize in H. cbv zeta in H.
    destruct (Scipy.minimize _ _ _ _ _) as [r|e]; cbn [bind] in H; [|discriminate H].
    destruct (Scipy.success r); [|discriminate H].
    apply Hmk in H. exact H.
Qed.

Lemma runner_weights_are_labelled_witness :
  exists weights,
    @run_risk_parity_optimization Sample.vertex_search Sample.two_assets
    = Return weights /\
    s_index weights = ["A"; "B"] /\
    length (s_values weights) = 2.
Proof.
  eexists. split; [vm_compute; reflexivity|].
  apply (@runner_weights_are_labelled Sample.vertex_search Sample.two_assets).
  left. vm_compute. reflexivity.
Defined.

End RunnerExtras.

(** ** The sign of sums of squares in binary64 *)

Module SignFacts.

(** The non-negative numbers: [+0], the positive numbers and [+inf]. *)
Definition nonneg_sf (f : spec_float) : bool :=
  match f with
  | S754_zero false | S754_infinity false | S754_finite false _ _ => true
  | _ => false
  end.

Lemma shr_1_nonneg mrs : (0 <= shr_m mrs)%Z -> (0 <= shr_m (shr_1 mrs))%Z.
Proof.
  destruct mrs as [m r s]. simpl. intros H.
  destruct m as [|p|p]; [simpl; lia | destruct p; simpl; lia | lia].
Qed.

Lemma iter_shr_1_nonneg n mrs :
  (0 <= shr_m mrs)%Z -> (0 <= shr_m (iter_pos shr_1 n mrs))%Z.
Proof.
  revert mrs. induction n as [n IH|n IH|]; intros mrs H; simpl.
  - apply IH, IH, shr_1_nonneg, H.
  - apply IH, IH, H.
  - apply shr_1_nonneg, H.
Qed.

Lemma shr_fexp_nonneg m e l :
  (0 <= m)%Z -> (0 <= shr_m (fst (shr_fexp prec emax m e l)))%Z.
Proof.
  intros H. unfold shr_fexp, shr.
  assert (0 <= shr_m (shr_record_of_loc m l))%Z as H0
    by (destruct l as [|[| |]]; exact H).
  destruct (_ - e)%Z; simpl; try exact H0.
  apply iter_shr_1_nonneg, H0.
Qed.

Lemma round_nearest_even_nonneg m l :
  (0 <= m)%Z -> (0 <= round_nearest_even m l)%Z.
Proof.
  intros H. destruct l as [|[| |]]; simpl; try lia.
  destruct (Z.even m); lia.
Qed.

Lemma binary_round_aux_nonneg m e l :
  (0 <= m)%Z -> nonneg_sf (binary_round_aux prec emax false m e l) = true.
Proof.
  intros H. unfold binary_round_aux.
  pose proof (shr_fexp_nonneg m e l H) as H1.
  destruct (shr_fexp prec emax m e l) as [mrs' e']. simpl in H1.
  pose proof (shr_fexp_nonneg _ e' loc_Exact
                (round_nearest_even_nonneg _ (loc_of_shr_record mrs') H1)) as H2.
  destruct (shr_fexp prec emax _ e' loc_Exact) as [mrs'' e'']. simpl in H2.
  destruct (shr_m mrs'') as [|p|p]; [reflexivity | | lia].
  destruct (e'' <=? emax - prec)%Z; reflexivity.
Qed.

Lemma binary_round_nonneg m e :
  nonneg_sf (binary_round prec emax false m e) = true.
Proof.
  unfold binary_round. destruct (shl_align _ _ _) as [mz ez].
  apply binary_round_aux_nonneg. lia.
Qed.

Lemma SFadd_nonneg a b :
  nonneg_sf a = true -> nonneg_sf b = true -> nonneg_sf (SF64add a b) = true.
Proof.
  destruct a as [[|]|[|]| |[|] ma ea]; try discriminate;
    destruct b as [[|]|[|]| |[|] mb eb]; try discriminate; intros _ _;
    try reflexivity.
  unfold SF64add, SFadd, binary_normalize. simpl cond_Zopp.
  simpl Z.add. apply binary_round_nonneg.
Qed.

Lemma SFmul_square a :
  SF64mul a a = S754_nan \/ nonneg_sf (SF64mul a a) = true.
Proof.
  destruct a as [[|]|[|]| |s m e]; simpl; auto.
  right. unfold SF64mul, SFmul. rewrite xorb_nilpotent.
  apply binary_round_aux_nonneg. lia.
Qed.

Lemma nonneg_not_nan a :
  nonneg_sf (Prim2SF a) = true ->
  PrimFloat.is_nan a = false /\ (0 <=? a)%float = true.
Proof.
  intros H. split.
  - apply FloatFacts.is_nan_false. intros E. rewrite E in H. discriminate H.
  - rewrite leb_spec, FloatFacts.Prim2SF_zero.
    destruct (Prim2SF a) as [[|]|[|]| |[|] m e]; try discriminate H; reflexivity.
Qed.

Lemma skipped_square_nonneg d :
  nonneg_sf (Prim2SF (if PrimFloat.is_nan (d * d) then 0 else d * d)%float) = true.
Proof.
  destruct (PrimFloat.is_nan (d * d)) eqn:E; [reflexivity|].
  apply FloatFacts.is_nan_false in E. rewrite mul_spec in *.
  destruct (SFmul_square (Prim2SF d)) as [H|H]; [contradiction | exact H].
Qed.

Lemma sum_nonneg (v : vec) (acc : float) :
  nonneg_sf (Prim2SF acc) = true ->
  Forall (fun a => nonneg_sf (Prim2SF a) = true) v ->
  nonneg_sf (Prim2SF (fold_left (fun s a => (s + a)%float) v acc)) = true.
Proof.
  revert acc. induction v as [|a v IH]; intros acc Hacc Hv; simpl; [exact Hacc|].
  inversion Hv as [|a' v' Ha Hv']; subst.
  apply IH; [|exact Hv'].
  rewrite add_spec. now apply SFadd_nonneg.
Qed.

Lemma series_sum_of_squares_nonneg (dev : vec) :
  nonneg_sf (Prim2SF (Np.series_sum (map (fun d => (d * d)%float) dev))) = true.
Proof.
  unfold Np.series_sum, Np.sum. apply sum_nonneg; [reflexivity|].
  rewrite map_map. apply Forall_forall. intros a Ha.
  apply in_map_iff in Ha. destruct Ha as [d [<- _]].
  apply skipped_square_nonneg.
Qed.

End SignFacts.

Module ObjectiveExtras.

Import RiskParity.

(** X7: whenever the risk-parity objective returns, its value is a
    number and is not negative, never NaN: the squared deviations are
    summed by [np.sum] over a [pd.Series], which leaves the NaN squares
    out, and a sum of non-negative numbers cannot cancel. *)
Theorem objective_is_never_nan (self : RiskParityOptimizer) (weights : vec)
    (value : float) :
  _objective self weights = Return value ->
  PrimFloat.is_nan value = false /\ (0 <=? value)%float = true.
Proof.
  unfold _objective.
  destruct (_risk_contributions self weights) as [rc|e]; cbn [bind]; [|discriminate].
  destruct (Np.elementwise PrimFloat.sub rc (risk_budget self)) as [dev|e];
    cbn [bind]; [|discriminate].
  intros H. injection H as <-.
  apply SignFacts.nonneg_not_nan, SignFacts.series_sum_of_squares_nonneg.
Qed.

Lemma objective_is_never_nan_witness :
  exists value,
    _objective (init Sample.zero_variance None) [0.5; 0.5]%float = Return value /\
    PrimFloat.is_nan value = false /\ (0 <=? value)%float = true.
Proof.
  eexists. split; [vm_compute; reflexivity|].
  apply (objective_is_never_nan (init Sample.zero_variance None) [0.5; 0.5]%float).
  vm_compute. reflexivity.
Defined.

End ObjectiveExtras.

(** ** [MarkowitzOptimizer._check_weights] *)

Module WeightCheck.

(** NumPy's default tolerances [1e-5] and [1e-8], as binary64 values. *)
Definition rtol : float := 0x1.4f8b588e368f1p-17%float.
Definition atol : float := 0x1.5798ee2308c3ap-27%float.

(** [np.isclose(a, b)] on two scalars, with [equal_nan=False]. *)
Definition isclose (a b : float) : bool :=
  ((abs (a - b) <=? atol + rtol * abs b)%float && PrimFloat.is_finite b)
  || (a =? b)%float.

(** [np.isclose(np.sum(weights), 1.0)] *)
Definition _check_weights (weights : vec) : bool :=
  isclose (Np.sum weights) 1%float.

(** [1e-8 + 1e-5 * 1.0], about [1.001e-05]. *)
Definition weight_tolerance : float := 0x1.4fe13ec9bf514p-17%float.

Lemma SFeqb_finite_eq a s m e :
  SFeqb a (S754_finite s m e) = true -> a = S754_finite s m e.
Proof.
  unfold SFeqb, SFcompare.
  destruct a as [sa|sa| |sa ma ea]; destruct s; try destruct sa;
    try (intros H; discriminate H);
    change (Pos.compare_cont Eq ma m) with (Pos.compare ma m);
    destruct (Z.compare_spec ea e) as [->|_|_]; try (intros H; discriminate H);
    destruct (Pos.compare_spec ma m) as [->|_|_]; try (intros H; discriminate H);
    reflexivity.
Qed.

Lemma check_weights_tolerance (w : vec) :
  _check_weights w = (abs (Np.sum w - 1) <=? weight_tolerance)%float.
Proof.
  unfold _check_weights, isclose.
  change (atol + rtol * abs 1)%float with weight_tolerance.
  change (PrimFloat.is_finite 1) with true. rewrite andb_true_r.
  destruct (Np.sum w =? 1)%float eqn:E; [|apply orb_false_r].
  rewrite eqb_spec in E.
  assert (Prim2SF (Np.sum w) = Prim2SF 1%float) as H.
  { remember (Prim2SF 1%float) as one eqn:H1. vm_compute in H1. subst one.
    now apply SFeqb_finite_eq. }
  apply Prim2SF_inj in H. rewrite H. reflexivity.
Qed.

Lemma within_tolerance_finite (s : float) :
  (abs (s - 1) <=? weight_tolerance)%float = true -> PrimFloat.is_finite s = true.
Proof.
  rewrite leb_spec, abs_spec, sub_spec. intros H.
  apply FloatFacts.is_finite_spec.
  remember (Prim2SF 1%float) as one eqn:H1. vm_compute in H1.
  remember (Prim2SF weight_tolerance) as tol eqn:H2. vm_compute in H2. subst one tol.
  destruct (Prim2SF s) as [sg|sg| |sg m e]; try reflexivity.
  - destruct sg; discriminate H.
  - discriminate H.
Qed.

(** X8: the weight check is the single test [|sum(w) - 1| <= 1.001e-05]
    in binary64; it turns down every weight vector whose sum is NaN or
    infinite. *)
Theorem check_weights_is_a_tolerance_test (weights : vec) :
  _check_weights weights =
  (abs (Np.sum weights - 1) <=? weight_tolerance)%float /\
  (_check_weights weights = true -> PrimFloat.is_finite (Np.sum weights) = true).
Proof.
  split; [apply check_weights_tolerance|].
  rewrite check_weights_tolerance. apply within_tolerance_finite.
Qed.

End WeightCheck.

(** ** [backtest.py]: the performance statistics *)

Module Backtest.

(** pandas' cumulative and extreme operations over a float [pd.Series]
    skip the NaN entries: they are replaced by a neutral value before
    NumPy's operation runs, and put back afterwards. *)
Definition mask_nan (fill : float) (v : vec) : vec :=
  map (fun a => if PrimFloat.is_nan a then fill else a) v.

Definition restore_nan (orig res : vec) : vec :=
  Np.zip_with (fun o r => if PrimFloat.is_nan o then Np.nan else r) orig res.

Fixpoint accumulate_from (op : float -> float -> float) (acc : float) (v : vec) : vec :=
  match v with
  | [] => []
  | a :: v' => let acc' := op acc a in acc' :: accumulate_from op acc' v'
  end.

(** [ufunc.accumulate]: the first entry is kept, each later one is the
    operation applied to the running value and the entry. *)
Definition accumulate (op : float -> float -> float) (v : vec) : vec :=
  match v with
  | [] => []
  | a :: v' => a :: accumulate_from op a v'
  end.

(** [np.maximum] and [np.minimum] on two scalars. *)
Definition maximum (a b : float) : float :=
  if (b <=? a)%float || PrimFloat.is_nan a then a else b.

Definition minimum (a b : float) : float :=
  if (a <=? b)%float || PrimFloat.is_nan a then a else b.

(** [Series.cumprod()], [Series.cummax()] and [Series.min()] *)
Definition cumprod (v : vec) : vec :=
  restore_nan v (accumulate PrimFloat.mul (mask_nan 1%float v)).

Definition cummax (v : vec) : vec :=
  restore_nan v (accumulate maximum (mask_nan neg_infinity v)).

Definition series_min (v : vec) : float :=
  if forallb PrimFloat.is_nan v then Np.nan
  else match mask_nan infinity v with
       | [] => Np.nan
       | a :: v' => fold_left minimum v' a
       end.

(** A dictionary with string keys, in insertion order. *)
Definition dict := list (string * float).

Fixpoint dict_get (d : dict) (key : string) : option float :=
  match d with
  | [] => None
  | (k, v) :: d' => if String.eqb k key then Some v else dict_get d' key
  end.

Section WithStatistics.

(** [np.mean] and [np.std] of a [pd.Series], taken as given. *)
Variable series_mean : vec -> float.
Variable series_std : vec -> float.

Definition compute_performance_stats (portfolio_returns : vec)
    (risk_free_rate : option float) (trading_days : option Z) : dict :=
  let risk_free_rate := kwarg 0%float risk_free_rate in
  let trading_days := kwarg 252%Z trading_days in
  let ann_return := (series_mean portfolio_returns * Np.float_of_Z trading_days)%float in
  let ann_vol :=
    (series_std portfolio_returns * PrimFloat.sqrt (Np.float_of_Z trading_days))%float in
  let sharpe_ratio := ((ann_return - risk_free_rate) / ann_vol)%float in
  let cumulative_returns := cumprod (map (fun r => (1 + r)%float) portfolio_returns) in
  let peak := cummax cumulative_returns in
  let drawdown := Np.zip_with (fun c p => ((c - p) / p)%float) cumulative_returns peak in
  let max_drawdown := series_min drawdown in
  let calmar_ratio :=
    if (max_drawdown <? 0)%float then (ann_return / abs max_drawdown)%float
    else Np.nan in
  [ ("Annualized Return", ann_return);
    ("Annualized Volatility", ann_vol);
    ("Sharpe Ratio", sharpe_ratio);
    ("Max Drawdown", max_drawdown);
    ("Calmar Ratio", calmar_ratio) ].

End WithStatistics.

(** Daily returns of 12.5%, -50% and 0%, and a mean and a deviation to run
    the statistics with. *)
Definition three_days : vec := [0.125; -0.5; 0]%float.

Definition plain_mean (v : vec) : float :=
  (Np.series_sum v / Np.float_of_nat (length v))%float.

Definition no_deviation (v : vec) : float := 0%float.

End Backtest.

Module DrawdownFacts.

Import Backtest.

(** Zero, the negative numbers and [-inf]. *)
Definition nonpos_sf (f : spec_float) : bool :=
  match f with
  | S754_zero _ | S754_finite true _ _ | S754_infinity true => true
  | _ => false
  end.

Lemma finite_not_nan a : PrimFloat.is_finite a = true -> PrimFloat.is_nan a = false.
Proof.
  intros H. apply FloatFacts.is_finite_spec in H. apply FloatFacts.is_nan_false.
  intros E. rewrite E in H. discriminate H.
Qed.

Lemma sub_self a :
  PrimFloat.is_finite a = true -> Prim2SF (a - a) = S754_zero false.
Proof.
  intros H. apply FloatFacts.is_finite_spec in H. rewrite sub_spec.
  destruct (Prim2SF a) as [s|s| |s m e]; try discriminate H.
  - destruct s; reflexivity.
  - unfold SF64sub, SFsub. rewrite Z.sub_diag. reflexivity.
Qed.

Lemma zero_div z c s :
  Prim2SF z = S754_zero s ->
  PrimFloat.is_finite c = true -> (c =? 0)%float = false ->
  nonpos_sf (Prim2SF (z / c)) = true.
Proof.
  intros Hz Hc Hnz. apply FloatFacts.is_finite_spec in Hc.
  rewrite div_spec, Hz.
  destruct (Prim2SF c) as [sc|sc| |sc m e] eqn:E; try discriminate Hc.
  - assert ((c =? 0)%float = true) as Ht
      by (apply FloatFacts.eqb_zero_spec; exists sc; exact E).
    rewrite Ht in Hnz. discriminate Hnz.
  - reflexivity.
Qed.

Lemma minimum_nonpos acc a :
  nonpos_sf (Prim2SF acc) = true -> PrimFloat.is_nan a = false ->
  nonpos_sf (Prim2SF (minimum acc a)) = true.
Proof.
  intros Hacc Ha. unfold minimum.
  destruct ((acc <=? a)%float || PrimFloat.is_nan acc) eqn:E; [exact Hacc|].
  apply orb_false_iff in E. destruct E as [E _].
  apply FloatFacts.is_nan_false in Ha. rewrite leb_spec in E.
  destruct (Prim2SF acc) as [sa|[|]| |[|] ma ea]; try discriminate Hacc;
    destruct (Prim2SF a) as [s|[|]| |[|] m e]; try reflexivity;
    try discriminate E; try (exfalso; apply Ha; reflexivity).
Qed.

Lemma fold_minimum_nonpos (v : vec) (acc : float) :
  nonpos_sf (Prim2SF acc) = true ->
  Forall (fun a => PrimFloat.is_nan a = false) v ->
  nonpos_sf (Prim2SF (fold_left minimum v acc)) = true.
Proof.
  revert acc. induction v as [|a v IH]; intros acc Hacc Hv; simpl; [exact Hacc|].
  inversion Hv as [|a' v' Ha Hv']; subst.
  apply IH; [|exact Hv']. now apply minimum_nonpos.
Qed.

Lemma mask_nan_numbers (fill : float) (v : vec) :
  PrimFloat.is_nan fill = false ->
  Forall (fun a => PrimFloat.is_nan a = false) (mask_nan fill v).
Proof.
  intros Hf. unfold mask_nan. apply Forall_forall. intros a Ha.
  apply in_map_iff in Ha. destruct Ha as [b [<- _]].
  destruct (PrimFloat.is_nan b) eqn:E; assumption.
Qed.

Lemma nonpos_leb_zero a :
  nonpos_sf (Prim2SF a) = true ->
  (a <=? 0)%float = true /\ PrimFloat.is_nan a = false.
Proof.
  intros H. split.
  - rewrite leb_spec, FloatFacts.Prim2SF_zero.
    destruct (Prim2SF a) as [s|[|]| |[|] m e]; try discriminate H; reflexivity.
  - apply FloatFacts.is_nan_false. intros E. rewrite E in H. discriminate H.
Qed.


Lemma cumprod_head a v :
  PrimFloat.is_nan a = false -> exists cs, cumprod (a :: v) = a :: cs.
Proof.
  intros Ha. unfold cumprod, mask_nan, restore_nan, accumulate. simpl.
  rewrite Ha. eexists; reflexivity.
Qed.

Lemma cummax_head a v :
  PrimFloat.is_nan a = false -> exists ps, cummax (a :: v) = a :: ps.
Proof.
  intros Ha. unfold cummax, mask_nan, restore_nan, accumulate. simpl.
  rewrite Ha. eexists; reflexivity.
Qed.

Lemma series_min_head d ds :
  nonpos_sf (Prim2SF d) = true ->
  nonpos_sf (Prim2SF (series_min (d :: ds))) = true.
Proof.
  intros Hd.
  destruct (nonpos_leb_zero d Hd) as [_ Hn].
  unfold series_min. simpl. rewrite Hn. simpl.
  apply fold_minimum_nonpos; [exact Hd|].
  apply mask_nan_numbers. reflexivity.
Qed.

End DrawdownFacts.

Module BacktestExtras.

Import Backtest DrawdownFacts.


(** X10: when the first day's growth factor [1 + r] is a finite number
    other than zero, the maximum drawdown is a number and is never
    positive: the drawdown of the first day is a zero, and the least
    drawdown lies at or below it. *)
Theorem max_drawdown_is_never_positive
    (series_mean series_std : vec -> float) (r0 : float) (rest : vec)
    (risk_free_rate : option float) (trading_days : option Z) :
  PrimFloat.is_finite (1 + r0)%float = true ->
  (1 + r0 =? 0)%float = false ->
  exists max_drawdown,
    dict_get (compute_performance_stats series_mean series_std (r0 :: rest)
                risk_free_rate trading_days) "Max Drawdown" = Some max_drawdown /\
    (max_drawdown <=? 0)%float = true /\
    PrimFloat.is_nan max_drawdown = false.
Proof.
  intros Hfin Hnz. unfold compute_performance_stats. cbv zeta.
  eexists. split; [reflexivity|].
  apply nonpos_leb_zero.
  pose proof (finite_not_nan _ Hfin) as Hnan.
  cbn [map].
  destruct (cumprod_head (1 + r0)%float (map (fun r => (1 + r)%float) rest) Hnan)
    as [cs Hcs].
  rewrite Hcs.
  destruct (cummax_head (1 + r0)%float cs Hnan) as [ps Hps].
  rewrite Hps. cbn [Np.zip_with].
  apply series_min_head.
  apply (zero_div _ _ false); [now apply sub_self | exact Hfin | exact Hnz].
Qed.

Lemma max_drawdown_is_never_positive_witness :
  exists max_drawdown,
    dict_get (compute_performance_stats plain_mean no_deviation three_days None None)
      "Max Drawdown" = Some max_drawdown /\
    (max_drawdown <=? 0)%float = true /\
    PrimFloat.is_nan max_drawdown = false.
Proof.
  apply (max_drawdown_is_never_positive plain_mean no_deviation
           0.125%float [-0.5; 0]%float None None).
  - reflexivity.
  - reflexivity.
Defined.

End BacktestExtras.

(** ** NaN in the max-diversification objective and in the frontier *)

Module NanFacts.

Lemma add_nan_r a : (a + nan)%float = nan.
Proof.
  apply Prim2SF_inj. rewrite add_spec. change (Prim2SF nan) with S754_nan.
  destruct (Prim2SF a); reflexivity.
Qed.

Lemma add_nan_l a : (nan + a)%float = nan.
Proof.
  apply Prim2SF_inj. rewrite add_spec. change (Prim2SF nan) with S754_nan.
  reflexivity.
Qed.

Lemma mul_nan_r a : (a * nan)%float = nan.
Proof.
  apply Prim2SF_inj. rewrite mul_spec. change (Prim2SF nan) with S754_nan.
  destruct (Prim2SF a); reflexivity.
Qed.

Lemma div_nan_l a : (nan / a)%float = nan.
Proof.
  apply Prim2SF_inj. rewrite div_spec. change (Prim2SF nan) with S754_nan.
  reflexivity.
Qed.

Lemma opp_nan : (- nan)%float = nan.
Proof. reflexivity. Qed.

Lemma dot_fold_nan (l : list (float * float)) :
  fold_left (fun acc p => (acc + fst p * snd p)%float) l nan = nan.
Proof.
  induction l as [|p l IH]; simpl; [reflexivity|].
  now rewrite add_nan_l.
Qed.

Lemma dot_fold_meets_nan (u v : vec) (i : nat) (acc : float) :
  length u = length v -> i < length v -> nth i v 0%float = nan ->
  fold_left (fun a p => (a + fst p * snd p)%float) (combine u v) acc = nan.
Proof.
  revert v i acc. induction u as [|x u IH]; intros [|y v] i acc Hl Hi Hn;
    simpl in *; try lia; try discriminate Hl.
  destruct i as [|i].
  - subst y. rewrite mul_nan_r, add_nan_r. apply dot_fold_nan.
  - apply (IH v i); [congruence | lia | exact Hn].
Qed.

Lemma dot_prod_nan (u v : vec) (i : nat) :
  length u = length v -> i < length v -> nth i v 0%float = nan ->
  Np.dot_prod u v = nan.
Proof.
  intros. unfold Np.dot_prod. now apply dot_fold_meets_nan with (i := i).
Qed.

End NanFacts.

Module NanExtras.

Import Pointwise MaxDiversificationProps.

(** X11: a negative entry on the diagonal of the covariance matrix is
    accepted by the max-diversification constructor, and makes the
    objective NaN at every weight vector of the right size. *)
Theorem negative_variance_makes_objective_nan
    (cov_matrix : DataFrame) (w : vec) (i : nat) :
  square cov_matrix (length (columns cov_matrix)) ->
  length w = length (columns cov_matrix) ->
  i < length (columns cov_matrix) ->
  (nth i (nth i (rows cov_matrix) []) 0 <? 0)%float = true ->
  nth i (MaxDiversification.sigma_individual (MaxDiversification.init cov_matrix))
      0%float = Np.nan /\
  MaxDiversification._neg_objective (MaxDiversification.init cov_matrix) w =
  Return Np.nan.
Proof.
  intros Hsq Hw Hi Hneg.
  pose proof (sigma_individual_pointwise cov_matrix Hsq) as Hsig.
  assert (nth i (MaxDiversification.sigma_individual
                   (MaxDiversification.init cov_matrix)) 0%float = Np.nan) as Hnan.
  { rewrite Hsig.
    rewrite (nth_indep _ 0%float (standalone_volatility cov_matrix 0))
      by now rewrite length_map, length_seq.
    rewrite (map_nth (standalone_volatility cov_matrix)), seq_nth by exact Hi.
    unfold standalone_volatility. now apply FloatFacts.sqrt_negative. }
  split; [exact Hnan|].
  destruct Hsq as [Hrows _].
  unfold MaxDiversification._neg_objective, MaxDiversification._diversification_ratio,
    Np.dot.
  assert (length (MaxDiversification.sigma_individual
                    (MaxDiversification.init cov_matrix))
          = length (columns cov_matrix)) as Hlen
    by now rewrite Hsig, length_map, length_seq.
  rewrite Hlen, Hw, Nat.eqb_refl. cbn [bind].
  rewrite md_volatility_returns by (simpl; congruence). cbn [bind].
  rewrite (NanFacts.dot_prod_nan w _ i) by (try rewrite Hlen; congruence || assumption).
  now rewrite NanFacts.div_nan_l.
Qed.

Lemma negative_variance_makes_objective_nan_witness :
  MaxDiversification._neg_objective
    (MaxDiversification.init Sample.negative_variance) [1%float] = Return Np.nan.
Proof.
  apply (negative_variance_makes_objective_nan Sample.negative_variance [1%float] 0).
  - repeat split. repeat constructor.
  - reflexivity.
  - simpl. lia.
  - reflexivity.
Defined.

(** X12: a NaN in the frontier does not tell that a grid point failed to
    converge.  A point whose solve succeeded at weights with a negative
    [w^T Sigma w] is recorded as NaN as well. *)
Theorem converged_point_can_be_nan {solver : Scipy.Solver}
    (self : Markowitz.MarkowitzOptimizer) (short_allowed : bool) (t : float)
    (r : Scipy.OptimizeResult) :
  Frontier.point_solve self short_allowed t = Return r ->
  Scipy.success r = true ->
  length (columns (Markowitz.Sigma self)) = length (Scipy.x r) ->
  length (rows (Markowitz.Sigma self)) = length (Scipy.x r) ->
  (radicand (Markowitz.Sigma self) (Scipy.x r) <? 0)%float = true ->
  Markowitz.efficient_frontier self (Some [t]) (Some short_allowed) None =
  Return ([t], [Np.nan]).
Proof.
  intros Hr Hs Hc Hrows Hneg.
  rewrite MarkowitzProps.efficient_frontier_sweep. simpl.
  unfold Frontier.point_volatility. rewrite Hr. cbn [bind]. rewrite Hs.
  rewrite MarkowitzProps.portfolio_volatility_returns by assumption.
  fold (radicand (Markowitz.Sigma self) (Scipy.x r)).
  rewrite (FloatFacts.sqrt_negative _ Hneg). reflexivity.
Qed.

Lemma converged_point_can_be_nan_witness :
  @Markowitz.efficient_frontier Sample.vertex_search
    (Markowitz.init [1%float] Sample.negative_variance None)
    (Some [1%float]) (Some false) None =
  Return ([1%float], [Np.nan]).
Proof.
  apply (@converged_point_can_be_nan Sample.vertex_search
           (Markowitz.init [1%float] Sample.negative_variance None) false 1%float
           (Scipy.mkResult [1%float] true "Optimization terminated successfully")).
  - vm_compute. reflexivity.
  - reflexivity.
  - reflexivity.
  - reflexivity.
  - reflexivity.
Defined.

End NanExtras.
